(** * The schedutil cpufreq governor (kernel/sched/cpufreq_schedutil.c)

    A shallow embedding of the decision engine of the Exynos flavour of the
    schedutil governor, and the properties of it that the design document
    states.  C objects are records, a pointer that the code tests against
    NULL is an [option], per-cpu variables are lists indexed by the cpu
    number, and the functions take the objects they dereference and return
    the updated objects (explicit state passing).  Integers are [Z] with the
    wrap-around of their C type written out; the target is arm64, so
    [unsigned long] has 64 bits and [unsigned int] has 32. *)

From Stdlib Require Import ZArith List Bool Lia Sorted.
From stdpp Require Import base list.
Import ListNotations.
Local Open Scope Z_scope.

(** ** Machine integers *)

Definition UINT_MAX : Z := 2 ^ 32 - 1.
Definition ULONG_MAX : Z := 2 ^ 64 - 1.

(** Conversion to [unsigned int], [unsigned long]/[u64] and [s64]. *)
Definition u32 (z : Z) : Z := z mod 2 ^ 32.
Definition u64 (z : Z) : Z := z mod 2 ^ 64.
Definition s64 (z : Z) : Z :=
  let w := z mod 2 ^ 64 in if w <? 2 ^ 63 then w else w - 2 ^ 64.

(** [CPUFREQ_ENTRY_INVALID] is [~0u] in include/linux/cpufreq.h. *)
Definition CPUFREQ_ENTRY_INVALID : Z := UINT_MAX.
(** [PANIC_CPU_INVALID] is [-1] in include/linux/kernel.h. *)
Definition PANIC_CPU_INVALID : Z := -1.

(** A test [flags & BIT] used as a C condition. *)
Definition flag_set (flags bit : Z) : bool := negb (Z.land flags bit =? 0).

(** ** cpumasks: bitmaps, walked in increasing cpu order *)

Definition cpumask := Z.

Definition cpumask_test_cpu (cpu : nat) (m : cpumask) : bool :=
  Z.testbit m (Z.of_nat cpu).

Definition cpumask_and (a b : cpumask) : cpumask := Z.land a b.

(** [for_each_cpu(cpu, m)] over cpu numbers below [n]. *)
Definition for_each_cpu (n : nat) (m : cpumask) : list nat :=
  List.filter (fun cpu => cpumask_test_cpu cpu m) (seq 0 n).

Definition cpumask_weight (n : nat) (m : cpumask) : Z :=
  Z.of_nat (length (for_each_cpu n m)).

(** ** Data model *)

(** The fields of [struct cpufreq_policy] that the governor reads or writes. *)
Record cpufreq_policy := {
  policy_cpu : nat;
  policy_min : Z;
  policy_max : Z;
  policy_cur : Z;
  cpuinfo_max_freq : Z;
  fast_switch_enabled : bool;
  related_cpus : cpumask;
}.

Definition set_policy_cur (v : Z) (p : cpufreq_policy) : cpufreq_policy :=
  {| policy_cpu := policy_cpu p; policy_min := policy_min p;
     policy_max := policy_max p; policy_cur := v;
     cpuinfo_max_freq := cpuinfo_max_freq p;
     fast_switch_enabled := fast_switch_enabled p;
     related_cpus := related_cpus p |}.

(** [struct sugov_policy].  [policy] is the address of the cpufreq policy
    (its index in the table of policies), [None] for NULL; the functions of
    the update path receive the policy object itself next to the
    [sugov_policy], as the C code loads [sg_policy->policy] first. *)
Record sugov_policy := {
  policy : option nat;
  last_freq_update_time : Z;
  min_rate_limit_ns : Z;
  up_rate_delay_ns : Z;
  down_rate_delay_ns : Z;
  next_freq : Z;
  cached_raw_freq : Z;
  work_in_progress : bool;
  need_freq_update : bool;
}.

Definition set_next_freq (v : Z) (s : sugov_policy) : sugov_policy :=
  {| policy := policy s; last_freq_update_time := last_freq_update_time s;
     min_rate_limit_ns := min_rate_limit_ns s;
     up_rate_delay_ns := up_rate_delay_ns s;
     down_rate_delay_ns := down_rate_delay_ns s;
     next_freq := v; cached_raw_freq := cached_raw_freq s;
     work_in_progress := work_in_progress s;
     need_freq_update := need_freq_update s |}.

Definition set_cached_raw_freq (v : Z) (s : sugov_policy) : sugov_policy :=
  {| policy := policy s; last_freq_update_time := last_freq_update_time s;
     min_rate_limit_ns := min_rate_limit_ns s;
     up_rate_delay_ns := up_rate_delay_ns s;
     down_rate_delay_ns := down_rate_delay_ns s;
     next_freq := next_freq s; cached_raw_freq := v;
     work_in_progress := work_in_progress s;
     need_freq_update := need_freq_update s |}.

Definition set_last_freq_update_time (v : Z) (s : sugov_policy) : sugov_policy :=
  {| policy := policy s; last_freq_update_time := v;
     min_rate_limit_ns := min_rate_limit_ns s;
     up_rate_delay_ns := up_rate_delay_ns s;
     down_rate_delay_ns := down_rate_delay_ns s;
     next_freq := next_freq s; cached_raw_freq := cached_raw_freq s;
     work_in_progress := work_in_progress s;
     need_freq_update := need_freq_update s |}.

Definition set_work_in_progress (v : bool) (s : sugov_policy) : sugov_policy :=
  {| policy := policy s; last_freq_update_time := last_freq_update_time s;
     min_rate_limit_ns := min_rate_limit_ns s;
     up_rate_delay_ns := up_rate_delay_ns s;
     down_rate_delay_ns := down_rate_delay_ns s;
     next_freq := next_freq s; cached_raw_freq := cached_raw_freq s;
     work_in_progress := v;
     need_freq_update := need_freq_update s |}.

Definition set_need_freq_update (v : bool) (s : sugov_policy) : sugov_policy :=
  {| policy := policy s; last_freq_update_time := last_freq_update_time s;
     min_rate_limit_ns := min_rate_limit_ns s;
     up_rate_delay_ns := up_rate_delay_ns s;
     down_rate_delay_ns := down_rate_delay_ns s;
     next_freq := next_freq s; cached_raw_freq := cached_raw_freq s;
     work_in_progress := work_in_progress s;
     need_freq_update := v |}.

(** [struct sugov_cpu]; [sg_policy] is the address of the group's
    [sugov_policy] (its index in the table of allocated groups). *)
Record sugov_cpu := {
  sg_policy : option nat;
  iowait_boost : Z;
  iowait_boost_max : Z;
  last_update : Z;
  util : Z;
  max : Z;
  flags : Z;
  saved_idle_calls : Z;
}.

Definition set_iowait_boost (v : Z) (c : sugov_cpu) : sugov_cpu :=
  {| sg_policy := sg_policy c; iowait_boost := v;
     iowait_boost_max := iowait_boost_max c; last_update := last_update c;
     util := util c; max := max c; flags := flags c;
     saved_idle_calls := saved_idle_calls c |}.

Definition set_last_update (v : Z) (c : sugov_cpu) : sugov_cpu :=
  {| sg_policy := sg_policy c; iowait_boost := iowait_boost c;
     iowait_boost_max := iowait_boost_max c; last_update := v;
     util := util c; max := max c; flags := flags c;
     saved_idle_calls := saved_idle_calls c |}.

Definition set_saved_idle_calls (v : Z) (c : sugov_cpu) : sugov_cpu :=
  {| sg_policy := sg_policy c; iowait_boost := iowait_boost c;
     iowait_boost_max := iowait_boost_max c; last_update := last_update c;
     util := util c; max := max c; flags := flags c;
     saved_idle_calls := v |}.

Definition set_sample (u m f : Z) (c : sugov_cpu) : sugov_cpu :=
  {| sg_policy := sg_policy c; iowait_boost := iowait_boost c;
     iowait_boost_max := iowait_boost_max c; last_update := last_update c;
     util := u; max := m; flags := f;
     saved_idle_calls := saved_idle_calls c |}.

(** The zeroed per-cpu object ([memset] in [sugov_start], static storage). *)
Definition sugov_cpu_zero : sugov_cpu :=
  {| sg_policy := None; iowait_boost := 0; iowait_boost_max := 0;
     last_update := 0; util := 0; max := 0; flags := 0;
     saved_idle_calls := 0 |}.

#[global] Instance sugov_cpu_inhabited : Inhabited sugov_cpu :=
  populate sugov_cpu_zero.

(** The part of [struct sugov_exynos] read by the min-QoS handler. *)
Record sugov_exynos := {
  qos_min_class : Z;
}.

#[global] Instance sugov_exynos_inhabited : Inhabited sugov_exynos :=
  populate {| qos_min_class := 0 |}.

(** The global objects that the min-QoS notifier reaches: the two per-cpu
    arrays, the table of allocated [sugov_policy] objects that the
    [sg_policy] pointers index, the per-cpu policy pointers of the cpufreq
    core ([cpufreq_cpu_get]), and the cpu masks. *)
Record governor := {
  pcpu_sugov_cpu : list sugov_cpu;
  pcpu_sugov_exynos : list sugov_exynos;
  sg_policies : list sugov_policy;
  cpufreq_cpu_data : list (option cpufreq_policy);
  cpu_possible_mask : cpumask;
  cpu_active_mask : cpumask;
}.

(** ** What the governor takes from the rest of the kernel *)

(** Constants of the configuration that are declared outside this file. *)
Class Platform := {
  TICK_NSEC : Z;
  SCHED_CPUFREQ_DL : Z;
  SCHED_CPUFREQ_IOWAIT : Z;
  nr_cpu_ids : nat;
  arch_scale_freq_invariant : bool;
}.

(** The cpufreq driver calls of the update path.  [cpufreq_driver_resolve_freq]
    is the driver's.  [cpufreq_driver_fast_switch] is a macro of the file,
    the constant 0: its only instance is [stubbed_driver], and every
    statement about a fast switch is made for that instance. *)
Class CpufreqDriver := {
  cpufreq_driver_resolve_freq : cpufreq_policy -> Z -> Z;
  cpufreq_driver_fast_switch : cpufreq_policy -> Z -> Z;
}.

(** [#define cpufreq_driver_fast_switch(x, y) 0] *)
Definition stubbed_driver (resolve : cpufreq_policy -> Z -> Z) : CpufreqDriver :=
  {| cpufreq_driver_resolve_freq := resolve;
     cpufreq_driver_fast_switch := fun _ _ => 0 |}.

(** Scheduler state that the governor only reads during one update. *)
Record sched_env := {
  cpu_online_mask : cpumask;
  cpu_coregroup_mask0 : cpumask;
  idle_cpu : nat -> bool;
  panic_cpu : Z;
  tick_nohz_get_idle_calls : Z;
  boosted_cpu_util : Z;
  util_est_enqueued : Z;
  sched_feat_UTIL_EST : bool;
  rt_avg : Z;
  sched_rt_remove_ratio_for_freq : Z;
  use_pelt : bool;
  arch_scale_cpu_capacity : Z;
}.

(** What an update hands to other contexts. *)
Inductive event :=
  | irq_work_queue_on (cpu : Z)
  | trace_cpu_frequency (freq : Z)
  | cpufreq_driver_target (p : cpufreq_policy) (target_freq : Z).

(** Return values of a notifier (include/linux/notifier.h). *)
Inductive notify := NOTIFY_OK | NOTIFY_BAD.

Definition EINVAL : Z := 22.

(** ** Governor internals *)

Section Governor.
Context {PF : Platform} {DRV : CpufreqDriver}.

(** The signed time difference [time - since] that the rate limits test:
    a [u64] subtraction stored into an [s64]. *)
Definition delta_ns (time since : Z) : Z := s64 (time - since).

Definition sugov_should_update_freq (sg : sugov_policy) (time : Z)
  : sugov_policy * bool :=
  if work_in_progress sg then (sg, false)
  else if need_freq_update sg then
    (set_next_freq UINT_MAX (set_need_freq_update false sg), true)
  else
    (sg, min_rate_limit_ns sg <=? delta_ns time (last_freq_update_time sg)).

Definition sugov_up_down_rate_limit (sg : sugov_policy) (time : Z)
  (next_f : Z) : bool :=
  let d := delta_ns time (last_freq_update_time sg) in
  if (next_freq sg <? next_f) && (d <? up_rate_delay_ns sg) then true
  else if (next_f <? next_freq sg) && (d <? down_rate_delay_ns sg) then true
  else false.

Definition sugov_select_scaling_cpu (env : sched_env) : Z :=
  let mask := cpumask_and (cpu_coregroup_mask0 env) (cpu_online_mask env) in
  match List.find (idle_cpu env) (for_each_cpu nr_cpu_ids mask) with
  | Some cpu => Z.of_nat cpu
  | None =>
      if (cpumask_weight nr_cpu_ids mask =? 0)
         && negb (panic_cpu env =? PANIC_CPU_INVALID)
      then panic_cpu env
      else cpumask_weight nr_cpu_ids mask - 1
  end.

Definition sugov_update_commit (sg : sugov_policy) (p : cpufreq_policy)
  (env : sched_env) (time : Z) (next_f : Z)
  : sugov_policy * cpufreq_policy * list event :=
  if sugov_up_down_rate_limit sg time next_f then
    (set_cached_raw_freq 0 sg, p, [])
  else if next_freq sg =? next_f then (sg, p, [])
  else
    let sg1 := set_last_freq_update_time time (set_next_freq next_f sg) in
    if fast_switch_enabled p then
      let f := cpufreq_driver_fast_switch p next_f in
      if f =? CPUFREQ_ENTRY_INVALID then (sg1, p, [])
      else (sg1, set_policy_cur f p, [trace_cpu_frequency f])
    else
      let cpu := sugov_select_scaling_cpu env in
      if cpu <? 0 then (sg1, p, [])
      else (set_work_in_progress true sg1, p, [irq_work_queue_on cpu]).

(** [freqvar_tipping_point] without CONFIG_FREQVAR_TUNE. *)
Definition freqvar_tipping_point (cpu : nat) (freq : Z) : Z :=
  u32 (freq + Z.shiftr freq 2).

(** The raw candidate of [get_next_freq]: an [unsigned int] times an
    [unsigned long], divided as [unsigned long], stored into an
    [unsigned int]. *)
Definition raw_freq (p : cpufreq_policy) (util max : Z) : Z :=
  let freq := if arch_scale_freq_invariant then policy_max p else policy_cur p in
  u32 (u64 (freqvar_tipping_point (policy_cpu p) freq * util) / max).

Definition get_next_freq (sg : sugov_policy) (p : cpufreq_policy)
  (util max : Z) : sugov_policy * Z :=
  let freq := raw_freq p util max in
  if (freq =? cached_raw_freq sg) && negb (next_freq sg =? UINT_MAX)
  then (sg, next_freq sg)
  else (set_cached_raw_freq freq sg, cpufreq_driver_resolve_freq p freq).

(** Whether the selector answers from its cache. *)
Definition cache_hit (sg : sugov_policy) (p : cpufreq_policy) (u c : Z) : bool :=
  (raw_freq p u c =? cached_raw_freq sg) && negb (next_freq sg =? UINT_MAX).

Definition sugov_get_util (env : sched_env) : Z * Z :=
  let max_cap := arch_scale_cpu_capacity env in
  let u0 := boosted_cpu_util env in
  let u1 := if sched_feat_UTIL_EST env
            then Z.max u0 (util_est_enqueued env) else u0 in
  let u2 := if sched_rt_remove_ratio_for_freq env =? 0 then u1
            else u64 (u1 - u64 (rt_avg env * sched_rt_remove_ratio_for_freq env) / 100) in
  let u3 := if use_pelt env then Z.min u2 max_cap else u2 in
  (u3, max_cap).

Definition sugov_set_iowait_boost (c : sugov_cpu) (time : Z) (fl : Z)
  : sugov_cpu :=
  let c1 :=
    if flag_set fl SCHED_CPUFREQ_IOWAIT then
      set_iowait_boost (iowait_boost_max c) c
    else if negb (iowait_boost c =? 0) then
      if TICK_NSEC <? delta_ns time (last_update c)
      then set_iowait_boost 0 c else c
    else c in
  (* HACK: block iowait boost to avoid unnecessary setting max frequency *)
  set_iowait_boost 0 c1.

Definition sugov_iowait_boost (c : sugov_cpu) (util max : Z)
  : sugov_cpu * Z * Z :=
  let boost_util := iowait_boost c in
  let boost_max := iowait_boost_max c in
  if boost_util =? 0 then (c, util, max)
  else
    let c' := set_iowait_boost (Z.shiftr (iowait_boost c) 1) c in
    if u64 (util * boost_max) <? u64 (max * boost_util)
    then (c', boost_util, boost_max)
    else (c', util, max).

(** [sugov_cpu_is_busy] under CONFIG_NO_HZ_COMMON. *)
Definition sugov_cpu_is_busy (c : sugov_cpu) (env : sched_env)
  : sugov_cpu * bool :=
  let idle_calls := tick_nohz_get_idle_calls env in
  (set_saved_idle_calls idle_calls c, idle_calls =? saved_idle_calls c).

Definition sugov_update_single (c : sugov_cpu) (sg : sugov_policy)
  (p : cpufreq_policy) (env : sched_env) (time : Z) (fl : Z)
  : sugov_cpu * sugov_policy * cpufreq_policy * list event :=
  let c1 := set_last_update time (sugov_set_iowait_boost c time fl) in
  let '(sg1, go) := sugov_should_update_freq sg time in
  if negb go then (c1, sg1, p, [])
  else
    let '(c2, busy) := sugov_cpu_is_busy c1 env in
    if flag_set fl SCHED_CPUFREQ_DL then
      let '(sg2, p2, evs) :=
        sugov_update_commit sg1 p env time (cpuinfo_max_freq p) in
      (c2, sg2, p2, evs)
    else
      let '(u, m) := sugov_get_util env in
      let '(c3, u', m') := sugov_iowait_boost c2 u m in
      let '(sg2, next_f) := get_next_freq sg1 p u' m' in
      let '(sg3, next_f') :=
        if busy && (next_f <? next_freq sg2)
        then (set_cached_raw_freq 0 sg2, next_freq sg2)
        else (sg2, next_f) in
      let '(sg4, p4, evs) := sugov_update_commit sg3 p env time next_f' in
      (c3, sg4, p4, evs).

(** The loop of [sugov_next_freq_shared] over the cpus [js]; [None] is the
    early [return policy->cpuinfo.max_freq]. *)
Fixpoint sugov_next_freq_shared_loop (cpus : list sugov_cpu) (time : Z)
  (js : list nat) (u m : Z) : list sugov_cpu * option (Z * Z) :=
  match js with
  | [] => (cpus, Some (u, m))
  | j :: js' =>
      let j_sg_cpu := cpus !!! j in
      if TICK_NSEC <? delta_ns time (last_update j_sg_cpu) then
        sugov_next_freq_shared_loop
          (<[j := set_iowait_boost 0 j_sg_cpu]> cpus) time js' u m
      else if flag_set (flags j_sg_cpu) SCHED_CPUFREQ_DL then (cpus, None)
      else
        let j_util := util j_sg_cpu in
        let j_max := max j_sg_cpu in
        let '(u1, m1) :=
          if u64 (j_max * u) <? u64 (j_util * m)
          then (j_util, j_max) else (u, m) in
        let '(c', u2, m2) := sugov_iowait_boost j_sg_cpu u1 m1 in
        sugov_next_freq_shared_loop (<[j := c']> cpus) time js' u2 m2
  end.

Definition sugov_next_freq_shared (cpus : list sugov_cpu) (sg : sugov_policy)
  (p : cpufreq_policy) (env : sched_env) (time : Z)
  : list sugov_cpu * sugov_policy * Z :=
  let js := for_each_cpu nr_cpu_ids
              (cpumask_and (related_cpus p) (cpu_online_mask env)) in
  match sugov_next_freq_shared_loop cpus time js 0 1 with
  | (cpus', None) => (cpus', sg, cpuinfo_max_freq p)
  | (cpus', Some (u, m)) =>
      let '(sg', f) := get_next_freq sg p u m in (cpus', sg', f)
  end.

(** [sugov_update_shared] run on cpu [this_cpu]; [hook] is the
    [update_util] member of [per_cpu(sugov_cpu, this_cpu)]. *)
Definition sugov_update_shared (this_cpu : nat) (cpus : list sugov_cpu)
  (sg : sugov_policy) (p : cpufreq_policy) (env : sched_env) (time : Z)
  (fl : Z) : list sugov_cpu * sugov_policy * cpufreq_policy * list event :=
  let '(u, m) := sugov_get_util env in
  let c := set_sample u m fl (cpus !!! this_cpu) in
  let c1 := set_last_update time (sugov_set_iowait_boost c time fl) in
  let cpus1 := <[this_cpu := c1]> cpus in
  let '(sg1, go) := sugov_should_update_freq sg time in
  if go then
    let '(cpus2, sg2, next_f) :=
      if flag_set fl SCHED_CPUFREQ_DL then (cpus1, sg1, cpuinfo_max_freq p)
      else sugov_next_freq_shared cpus1 sg1 p env time in
    let '(sg3, p3, evs) := sugov_update_commit sg2 p env time next_f in
    (cpus2, sg3, p3, evs)
  else (cpus1, sg1, p, []).

Definition sugov_work (sg : sugov_policy) (p : cpufreq_policy)
  : sugov_policy * list event :=
  (set_work_in_progress false sg, [cpufreq_driver_target p (next_freq sg)]).

(** ** The min-QoS notifier *)

Definition find_cpu_pm_qos_class (g : governor) (pm_qos_class : Z) : Z :=
  match
    List.find
      (fun cpu => (qos_min_class (pcpu_sugov_exynos g !!! cpu) =? pm_qos_class)
                  && cpumask_test_cpu cpu (cpu_active_mask g))
      (for_each_cpu nr_cpu_ids (cpu_possible_mask g))
  with
  | Some cpu => Z.of_nat cpu
  | None => - EINVAL
  end.

(** [cpufreq_cpu_get(cpu)]: the policy of the cpu, or NULL. *)
Definition cpufreq_cpu_get (g : governor) (cpu : nat) : option cpufreq_policy :=
  mjoin (cpufreq_cpu_data g !! cpu).

(** [sugov_pm_qos_callback(nb, val, v)] with [pm_qos_class = *(int * )v].
    [&per_cpu(sugov_cpu, cpu)] is never NULL; an [sg_policy] address
    outside the table is treated like NULL. *)
Definition sugov_pm_qos_callback (g : governor) (val : Z) (pm_qos_class : Z)
  : notify * list event :=
  let cpu := find_cpu_pm_qos_class g pm_qos_class in
  if cpu <? 0 then (NOTIFY_BAD, [])
  else
    let sg_cpu := pcpu_sugov_cpu g !!! Z.to_nat cpu in
    match sg_policy sg_cpu ≫= (fun a => sg_policies g !! a) with
    | None => (NOTIFY_BAD, [])
    | Some sgp =>
        match policy sgp with
        | None => (NOTIFY_BAD, [])
        | Some _ =>
            let next_f := next_freq sgp in
            match cpufreq_cpu_get g (Z.to_nat cpu) with
            | None => (NOTIFY_BAD, [])
            | Some p =>
                if policy_cur p <=? val then (NOTIFY_BAD, [])
                else (NOTIFY_OK, [cpufreq_driver_target p next_f])
            end
        end
    end.

(** The staleness test that [sugov_next_freq_shared] applies to a core, the
    objects of the cores [js] that pass it, and the deadline test. *)
Definition stale (time : Z) (c : sugov_cpu) : bool :=
  TICK_NSEC <? delta_ns time (last_update c).

Definition fresh_cpus (cpus : list sugov_cpu) (time : Z) (js : list nat)
  : list sugov_cpu :=
  List.filter (fun c => negb (stale time c)) (List.map (fun j => cpus !!! j) js).

Definition deadline (c : sugov_cpu) : bool :=
  flag_set (flags c) SCHED_CPUFREQ_DL.

End Governor.

(** ** The aggregation as the design document words it

    Each core's boost substitution is applied to the core's own pair, and
    the substituted pairs are then compared by cross-multiplication, the
    first of the best pairs winning; [(0, 1)] is the start value. *)

Definition boosted_pair (c : sugov_cpu) : Z * Z :=
  if iowait_boost c =? 0 then (util c, max c)
  else if util c * iowait_boost_max c <? max c * iowait_boost c
       then (iowait_boost c, iowait_boost_max c)
       else (util c, max c).

(** [ratio_lt a b]: the ratio of [a] is below the ratio of [b]. *)
Definition ratio_lt (a b : Z * Z) : bool := a.1 * b.2 <? b.1 * a.2.

Definition best_pair (pairs : list (Z * Z)) (start : Z * Z) : Z * Z :=
  fold_left (fun best x => if ratio_lt best x then x else best) pairs start.

(** Pairs and cores whose cross-products stay inside [unsigned long] and
    whose capacities are positive. *)
Definition pair_in_range (x : Z * Z) : Prop :=
  0 <= x.1 < 2 ^ 32 /\ 0 < x.2 < 2 ^ 32.

Definition cpu_in_range (c : sugov_cpu) : Prop :=
  pair_in_range (util c, max c)
  /\ 0 <= iowait_boost c < 2 ^ 32
  /\ (iowait_boost c <> 0 -> 0 < iowait_boost_max c < 2 ^ 32).

(** The boost of a core after it took part in an aggregation. *)
Definition decayed (c : sugov_cpu) : sugov_cpu :=
  if iowait_boost c =? 0 then c
  else set_iowait_boost (Z.shiftr (iowait_boost c) 1) c.

(** ** A cpufreq driver with a frequency table *)

(** [clamp_val(val, lo, hi)] of include/linux/kernel.h. *)
Definition clamp_val (v lo hi : Z) : Z := Z.min (Z.max v lo) hi.

(** The lowest entry of an ascending table that is at least [target], the
    highest entry when there is none ([CPUFREQ_RELATION_L]). *)
Fixpoint cpufreq_frequency_table_target (table : list Z) (target : Z) : Z :=
  match table with
  | [] => 0
  | [f] => f
  | f :: rest =>
      if target <=? f then f else cpufreq_frequency_table_target rest target
  end.

(** Modelled from the spec: [cpufreq_driver_resolve_freq] is not in
    cpufreq_schedutil.c; the candidate is resolved to the lowest
    hardware-supported frequency that is at least the candidate, clamped to
    the group's configured min/max. *)
Definition table_resolve_freq (table : list Z) (p : cpufreq_policy)
  (target : Z) : Z :=
  cpufreq_frequency_table_target table
    (clamp_val target (policy_min p) (policy_max p)).

(** The driver of this tree: a frequency table, fast switching stubbed. *)
Definition table_driver (table : list Z) : CpufreqDriver :=
  stubbed_driver (table_resolve_freq table).

(** ** Concrete objects for the examples *)

(** HZ = 250, the flag bits of include/linux/sched.h, eight cpus. *)
Definition example_platform : Platform :=
  {| TICK_NSEC := 4000000;
     SCHED_CPUFREQ_DL := 2;
     SCHED_CPUFREQ_IOWAIT := 4;
     nr_cpu_ids := 8;
     arch_scale_freq_invariant := true |}.

Definition example_table : list Z :=
  [455000; 715000; 949000; 1248000; 1456000; 1690000; 1794000].

Definition example_policy : cpufreq_policy :=
  {| policy_cpu := 0; policy_min := 455000; policy_max := 1794000;
     policy_cur := 949000; cpuinfo_max_freq := 1794000;
     fast_switch_enabled := false; related_cpus := 15 |}.

Definition example_sg_policy : sugov_policy :=
  {| policy := Some 0%nat; last_freq_update_time := 100000000;
     min_rate_limit_ns := 2000000; up_rate_delay_ns := 2000000;
     down_rate_delay_ns := 20000000; next_freq := 949000;
     cached_raw_freq := 0; work_in_progress := false;
     need_freq_update := false |}.

Definition example_env : sched_env :=
  {| cpu_online_mask := 255; cpu_coregroup_mask0 := 15;
     idle_cpu := fun cpu => Nat.eqb cpu 1; panic_cpu := PANIC_CPU_INVALID;
     tick_nohz_get_idle_calls := 7; boosted_cpu_util := 100;
     util_est_enqueued := 0; sched_feat_UTIL_EST := false; rt_avg := 0;
     sched_rt_remove_ratio_for_freq := 0; use_pelt := true;
     arch_scale_cpu_capacity := 1024 |}.

Definition example_cpu : sugov_cpu :=
  {| sg_policy := Some 0%nat; iowait_boost := 0; iowait_boost_max := 1794000;
     last_update := 100000000; util := 0; max := 0; flags := 0;
     saved_idle_calls := 7 |}.


(** Four cpus of one domain sampled at 800/1024 (20us before time
    100020000), 200/1024, a stale 900/1024 and 300/1024 with a pending
    boost; the other four cpus are in another domain. *)
Definition example_sample (u b last : Z) : sugov_cpu :=
  {| sg_policy := Some 0%nat; iowait_boost := b; iowait_boost_max := 1794000;
     last_update := last; util := u; max := 1024; flags := 0;
     saved_idle_calls := 0 |}.

Definition example_cpus : list sugov_cpu :=
  [example_sample 800 0 100000000; example_sample 200 0 100020000;
   example_sample 900 0 90000000; example_sample 300 400000 100010000;
   sugov_cpu_zero; sugov_cpu_zero; sugov_cpu_zero; sugov_cpu_zero].

(** cpus 0-3 in QoS class 3 with cpu 0 not active, cpus 4-7 in class 5
    without a policy; the group of class 3 has committed 715000 while the
    policy runs at 949000. *)
Definition example_governor : governor :=
  {| pcpu_sugov_cpu := example_cpus;
     pcpu_sugov_exynos :=
       [ {| qos_min_class := 3 |}; {| qos_min_class := 3 |};
         {| qos_min_class := 3 |}; {| qos_min_class := 3 |};
         {| qos_min_class := 5 |}; {| qos_min_class := 5 |};
         {| qos_min_class := 5 |}; {| qos_min_class := 5 |} ];
     sg_policies := [set_next_freq 715000 example_sg_policy];
     cpufreq_cpu_data :=
       [Some example_policy; Some example_policy; Some example_policy;
        Some example_policy; None; None; None; None];
     cpu_possible_mask := 255;
     cpu_active_mask := 254 |}.

(** ** Governor externals: tunables, start, limits *)

Definition s32 (z : Z) : Z :=
  let w := z mod 2 ^ 32 in if w <? 2 ^ 31 then w else w - 2 ^ 32.

(** Time unit factors of include/linux/time64.h, all [long]. *)
Definition NSEC_PER_USEC : Z := 1000.
Definition NSEC_PER_MSEC : Z := 1000000.
Definition USEC_PER_MSEC : Z := 1000.

(** [struct sugov_tunables] without its [attr_set]; the policies hooked on
    the set's [policy_list] are passed as a list of [sugov_policy]. *)
Record sugov_tunables := {
  up_rate_limit_us : Z;
  down_rate_limit_us : Z;
}.

Definition set_up_rate_delay_ns (v : Z) (s : sugov_policy) : sugov_policy :=
  {| policy := policy s; last_freq_update_time := last_freq_update_time s;
     min_rate_limit_ns := min_rate_limit_ns s;
     up_rate_delay_ns := v;
     down_rate_delay_ns := down_rate_delay_ns s;
     next_freq := next_freq s; cached_raw_freq := cached_raw_freq s;
     work_in_progress := work_in_progress s;
     need_freq_update := need_freq_update s |}.

Definition set_down_rate_delay_ns (v : Z) (s : sugov_policy) : sugov_policy :=
  {| policy := policy s; last_freq_update_time := last_freq_update_time s;
     min_rate_limit_ns := min_rate_limit_ns s;
     up_rate_delay_ns := up_rate_delay_ns s;
     down_rate_delay_ns := v;
     next_freq := next_freq s; cached_raw_freq := cached_raw_freq s;
     work_in_progress := work_in_progress s;
     need_freq_update := need_freq_update s |}.

Definition set_min_rate_limit_ns (v : Z) (s : sugov_policy) : sugov_policy :=
  {| policy := policy s; last_freq_update_time := last_freq_update_time s;
     min_rate_limit_ns := v;
     up_rate_delay_ns := up_rate_delay_ns s;
     down_rate_delay_ns := down_rate_delay_ns s;
     next_freq := next_freq s; cached_raw_freq := cached_raw_freq s;
     work_in_progress := work_in_progress s;
     need_freq_update := need_freq_update s |}.

Definition update_min_rate_limit_us (sg : sugov_policy) : sugov_policy :=
  set_min_rate_limit_ns (Z.min (up_rate_delay_ns sg) (down_rate_delay_ns sg)) sg.

(** [sugov_update_rate_limit_us(policy, up_ms, down_ms)]: [governor_data]
    is [policy->governor_data] and [tunables] is its [->tunables], each
    [None] for NULL; the arguments are [int], the products are [long]. *)
Definition sugov_update_rate_limit_us (governor_data : option sugov_policy)
  (tunables : option sugov_tunables) (up_rate_limit_ms down_rate_limit_ms : Z)
  : option sugov_policy * option sugov_tunables :=
  match governor_data with
  | None => (None, tunables)
  | Some sg =>
      match tunables with
      | None => (Some sg, None)
      | Some _ =>
          let t' :=
            {| up_rate_limit_us := u32 (up_rate_limit_ms * USEC_PER_MSEC);
               down_rate_limit_us := u32 (down_rate_limit_ms * USEC_PER_MSEC) |} in
          let sg1 := set_up_rate_delay_ns
                       (s64 (up_rate_limit_ms * NSEC_PER_MSEC)) sg in
          let sg2 := set_down_rate_delay_ns
                       (s64 (down_rate_limit_ms * NSEC_PER_MSEC)) sg1 in
          (Some (update_min_rate_limit_us sg2), Some t')
      end
  end.

(** The two sysfs stores.  [parsed] is what [kstrtouint(buf, 10, &v)] gives:
    [None] for a nonzero return, [Some v] with [v] an [unsigned int]
    otherwise; [count] is returned on success. *)
Definition up_rate_limit_us_store (tunables : sugov_tunables)
  (policy_list : list sugov_policy) (parsed : option Z) (count : Z)
  : Z * sugov_tunables * list sugov_policy :=
  match parsed with
  | None => (- EINVAL, tunables, policy_list)
  | Some rate_limit_us =>
      (count,
       {| up_rate_limit_us := rate_limit_us;
          down_rate_limit_us := down_rate_limit_us tunables |},
       List.map
         (fun sg => update_min_rate_limit_us
                      (set_up_rate_delay_ns (s64 (rate_limit_us * NSEC_PER_USEC)) sg))
         policy_list)
  end.

Definition down_rate_limit_us_store (tunables : sugov_tunables)
  (policy_list : list sugov_policy) (parsed : option Z) (count : Z)
  : Z * sugov_tunables * list sugov_policy :=
  match parsed with
  | None => (- EINVAL, tunables, policy_list)
  | Some rate_limit_us =>
      (count,
       {| up_rate_limit_us := up_rate_limit_us tunables;
          down_rate_limit_us := rate_limit_us |},
       List.map
         (fun sg => update_min_rate_limit_us
                      (set_down_rate_delay_ns (s64 (rate_limit_us * NSEC_PER_USEC)) sg))
         policy_list)
  end.

(** ** The slack timer *)

(** What the code uses of a [struct timer_list]. *)
Record timer_list := {
  timer_pending : bool;
  expires : Z;
}.

(** The slack-timer members of [struct sugov_exynos]. *)
Record sugov_slack := {
  min : Z;
  enabled : Z;
  started : bool;
  expired_time : Z;
  timer : timer_list;
}.

#[global] Instance sugov_slack_inhabited : Inhabited sugov_slack :=
  populate {| min := 0; enabled := 0; started := false; expired_time := 0;
              timer := {| timer_pending := false; expires := 0 |} |}.

Definition set_min (v : Z) (x : sugov_slack) : sugov_slack :=
  {| min := v; enabled := enabled x; started := started x;
     expired_time := expired_time x; timer := timer x |}.

Definition set_started (v : bool) (x : sugov_slack) : sugov_slack :=
  {| min := min x; enabled := enabled x; started := v;
     expired_time := expired_time x; timer := timer x |}.

Definition set_timer (v : timer_list) (x : sugov_slack) : sugov_slack :=
  {| min := min x; enabled := enabled x; started := started x;
     expired_time := expired_time x; timer := v |}.

(** [del_timer_sync] and [add_timer_on] as far as [timer_pending] sees. *)
Definition del_timer_sync (t : timer_list) : timer_list :=
  {| timer_pending := false; expires := expires t |}.

Definition add_timer_on (t : timer_list) : timer_list :=
  {| timer_pending := true; expires := expires t |}.

(** [time_after(a, b)] of include/linux/jiffies.h: [(long)(b - a) < 0]. *)
Definition time_after (a b : Z) : bool := s64 (b - a) <? 0.

(** [enum cpu_pm_event]; the notifier has cases for three of its values. *)
Inductive cpu_pm_event :=
  | CPU_PM_ENTER_PREPARE
  | CPU_PM_ENTER
  | CPU_PM_EXIT_POST
  | CPU_PM_other.

(** What the notifier reads from the rest of the kernel on its cpu. *)
Record slack_env := {
  jiffies : Z;
  msecs_to_jiffies : Z -> Z;
  schedtune_cpu_boost : Z;
  get_next_event_time_ms : Z;
}.

(** A [trace_sugov_slack(cpu, util, min, action, delta)] record. *)
Record slack_trace := {
  trace_util : Z;
  trace_min : Z;
  trace_action : cpu_pm_event;
  trace_delta : Z;
}.

Definition sugov_start_slack (x : sugov_slack) : sugov_slack :=
  if enabled x =? 0 then x
  else set_started true (set_min ULONG_MAX x).

Definition sugov_stop_slack (x : sugov_slack) : sugov_slack :=
  let x1 := set_started false x in
  if timer_pending (timer x1) then set_timer (del_timer_sync (timer x1)) x1
  else x1.

Definition sugov_need_slack_timer (c : sugov_cpu) (x : sugov_slack)
  (e : slack_env) : bool :=
  if negb (schedtune_cpu_boost e =? 0) then false
  else if (min x <? util c) && (expired_time x <? get_next_event_time_ms e)
  then true
  else false.

Definition sugov_pm_notifier (c : sugov_cpu) (x : sugov_slack) (e : slack_env)
  (action : cpu_pm_event) : notify * sugov_slack * list slack_trace :=
  if negb (started x) then (NOTIFY_OK, x, [])
  else
    match action with
    | CPU_PM_ENTER_PREPARE =>
        let x1 := if timer_pending (timer x)
                  then set_timer (del_timer_sync (timer x)) x else x in
        if sugov_need_slack_timer c x1 e then
          let t := {| timer_pending := timer_pending (timer x1);
                      expires := u64 (jiffies e
                                      + msecs_to_jiffies e (u32 (expired_time x1))) |} in
          (NOTIFY_OK, set_timer (add_timer_on t) x1,
           [ {| trace_util := util c; trace_min := min x1;
                trace_action := action; trace_delta := 1 |} ])
        else (NOTIFY_OK, x1, [])
    | CPU_PM_ENTER =>
        if timer_pending (timer x) && negb (sugov_need_slack_timer c x e) then
          (NOTIFY_OK, set_timer (del_timer_sync (timer x)) x,
           [ {| trace_util := util c; trace_min := min x;
                trace_action := action; trace_delta := -1 |} ])
        else (NOTIFY_OK, x, [])
    | CPU_PM_EXIT_POST =>
        if timer_pending (timer x)
           && time_after (expires (timer x)) (jiffies e) then
          (NOTIFY_OK, set_timer (del_timer_sync (timer x)) x,
           [ {| trace_util := util c; trace_min := min x;
                trace_action := action; trace_delta := -1 |} ])
        else (NOTIFY_OK, x, [])
    | CPU_PM_other => (NOTIFY_OK, x, [])
    end.

(** A blocking call that [sugov_limits] makes into the cpufreq core. *)
Inductive limits_call :=
  | cpufreq_policy_apply_limits (p : cpufreq_policy).

(** The hook that [sugov_start] installs on a cpu. *)
Inductive update_util_hook :=
  | hook_sugov_update_single
  | hook_sugov_update_shared.

Section Externals.
Context {PF : Platform}.

(** [for_each_cpu(cpu, mask) body(&per_cpu(var, cpu))]. *)
Definition for_each_per_cpu {A : Type} (body : A -> A) (mask : cpumask)
  (pcpu : list A) : list A :=
  fold_left (fun l cpu => alter body cpu l) (for_each_cpu nr_cpu_ids mask) pcpu.

(** The threshold that [sugov_update_min] computes in [int] arithmetic from
    [max_cap = arch_scale_cpu_capacity(NULL, policy->cpu)]; the product with
    the [unsigned int] [policy->min] is an [unsigned int]. *)
Definition min_cap_of (p : cpufreq_policy) (arch_capacity : Z) : Z :=
  let max_cap := s32 arch_capacity in
  let min_cap := s32 (u32 (u32 max_cap * policy_min p) / policy_max p) in
  s32 (Z.quot (s32 (min_cap * 4)) 5 + 1).

(** [sugov_update_min(policy)]; [policy_cpus] is [policy->cpus]. *)
Definition sugov_update_min (p : cpufreq_policy) (policy_cpus : cpumask)
  (arch_capacity : Z) (slack : list sugov_slack) : list sugov_slack :=
  let min_cap := min_cap_of p arch_capacity in
  for_each_per_cpu (set_min (u64 min_cap)) policy_cpus slack.

(** [sugov_limits(policy)] with [governor_data = policy->governor_data]. *)
Definition sugov_limits (governor_data : option sugov_policy)
  (p : cpufreq_policy) (policy_cpus : cpumask) (arch_capacity : Z)
  (slack : list sugov_slack)
  : option sugov_policy * list sugov_slack * list limits_call :=
  match governor_data with
  | None => (None, slack, [])
  | Some sg =>
      let calls := if fast_switch_enabled p then []
                   else [cpufreq_policy_apply_limits p] in
      (Some (set_need_freq_update true sg),
       sugov_update_min p policy_cpus arch_capacity slack, calls)
  end.

(** [policy_is_shared(policy)] of include/linux/cpufreq.h. *)
Definition policy_is_shared (policy_cpus : cpumask) : bool :=
  1 <? cpumask_weight nr_cpu_ids policy_cpus.

(** The per-cpu object that [sugov_start] leaves on a cpu of the policy. *)
Definition sugov_cpu_started (sg_ptr : nat) (p : cpufreq_policy) : sugov_cpu :=
  {| sg_policy := Some sg_ptr; iowait_boost := 0;
     iowait_boost_max := cpuinfo_max_freq p; last_update := 0;
     util := 0; max := 0; flags := 0; saved_idle_calls := 0 |}.

(** [sugov_start(policy)]: [sg_ptr] is the address [policy->governor_data]
    of [sg], [tunables] is [sg_policy->tunables], [policy_cpus] is
    [policy->cpus]; the last component lists the hooks installed. *)
Definition sugov_start (sg_ptr : nat) (sg : sugov_policy)
  (tunables : sugov_tunables) (p : cpufreq_policy) (policy_cpus : cpumask)
  (pcpu : list sugov_cpu) (slack : list sugov_slack)
  : sugov_policy * list sugov_cpu * list sugov_slack
    * list (nat * update_util_hook) :=
  let sg1 := set_up_rate_delay_ns
               (s64 (up_rate_limit_us tunables * NSEC_PER_USEC)) sg in
  let sg2 := set_down_rate_delay_ns
               (s64 (down_rate_limit_us tunables * NSEC_PER_USEC)) sg1 in
  let sg3 := update_min_rate_limit_us sg2 in
  let sg4 := set_last_freq_update_time 0 sg3 in
  let sg5 := set_next_freq UINT_MAX sg4 in
  let sg6 := set_work_in_progress false sg5 in
  let sg7 := set_need_freq_update false sg6 in
  let sg8 := set_cached_raw_freq 0 sg7 in
  (sg8,
   for_each_per_cpu (fun _ => sugov_cpu_started sg_ptr p) policy_cpus pcpu,
   for_each_per_cpu sugov_start_slack policy_cpus slack,
   List.map
     (fun cpu => (cpu, if policy_is_shared policy_cpus
                       then hook_sugov_update_shared
                       else hook_sugov_update_single))
     (for_each_cpu nr_cpu_ids policy_cpus)).

(** Consecutive calls of [sugov_iowait_boost] on one core, one per sample
    [(util, max)]. *)
Definition sugov_iowait_boost_over (c : sugov_cpu) (samples : list (Z * Z))
  : sugov_cpu :=
  fold_left (fun c s => (sugov_iowait_boost c s.1 s.2).1.1) samples c.

End Externals.

(** More objects for the examples. *)
Definition example_tunables : sugov_tunables :=
  {| up_rate_limit_us := 2000; down_rate_limit_us := 20000 |}.

Definition example_slack : sugov_slack :=
  {| min := 208; enabled := 1; started := true; expired_time := 70;
     timer := {| timer_pending := false; expires := 0 |} |}.

Definition example_slack_env : slack_env :=
  {| jiffies := 250000; msecs_to_jiffies := fun m => (m + 3) / 4;
     schedtune_cpu_boost := 0; get_next_event_time_ms := 90000 |}.

Section Properties.
Context {PF : Platform} {DRV : CpufreqDriver}.

(** ** Properties *)

(** *** Signed time differences *)

Lemma s64_small (z : Z) : 0 <= z < 2 ^ 63 -> s64 z = z.
Proof.
  intros Hz. unfold s64.
  rewrite Z.mod_small by lia.
  destruct (Z.ltb_spec z (2 ^ 63)); lia.
Qed.

Lemma delta_ns_after (since k : Z) :
  0 <= k < 2 ^ 63 -> delta_ns (u64 (since + k)) since = k.
Proof.
  intros Hk. unfold delta_ns, u64, s64.
  rewrite Zminus_mod_idemp_l.
  replace (since + k - since) with k by lia.
  rewrite Z.mod_small by lia.
  destruct (Z.ltb_spec k (2 ^ 63)); lia.
Qed.

(** *** The two gates of the rate limiter *)

Lemma sugov_up_down_rate_limit_true (sg : sugov_policy) (time next_f : Z) :
  sugov_up_down_rate_limit sg time next_f = true <->
  (next_freq sg < next_f
   /\ delta_ns time (last_freq_update_time sg) < up_rate_delay_ns sg)
  \/ (next_f < next_freq sg
      /\ delta_ns time (last_freq_update_time sg) < down_rate_delay_ns sg).
Proof.
  unfold sugov_up_down_rate_limit.
  destruct (Z.ltb_spec (next_freq sg) next_f);
    destruct (Z.ltb_spec next_f (next_freq sg));
    destruct (Z.ltb_spec (delta_ns time (last_freq_update_time sg))
                (up_rate_delay_ns sg));
    destruct (Z.ltb_spec (delta_ns time (last_freq_update_time sg))
                (down_rate_delay_ns sg));
    simpl; split; intros; try lia; try discriminate; reflexivity.
Qed.

Lemma sugov_update_commit_blocked (sg : sugov_policy) (p : cpufreq_policy)
  (env : sched_env) (time next_f : Z) :
  sugov_up_down_rate_limit sg time next_f = true ->
  sugov_update_commit sg p env time next_f = (set_cached_raw_freq 0 sg, p, []).
Proof. intros H. unfold sugov_update_commit. now rewrite H. Qed.

Lemma sugov_update_commit_same (sg : sugov_policy) (p : cpufreq_policy)
  (env : sched_env) (time : Z) :
  sugov_update_commit sg p env time (next_freq sg) = (sg, p, []).
Proof.
  unfold sugov_update_commit.
  assert (sugov_up_down_rate_limit sg time (next_freq sg) = false) as ->.
  { destruct (sugov_up_down_rate_limit sg time (next_freq sg)) eqn:E; [|done].
    apply sugov_up_down_rate_limit_true in E. lia. }
  now rewrite Z.eqb_refl.
Qed.

Lemma sugov_update_commit_passed (sg : sugov_policy) (p : cpufreq_policy)
  (env : sched_env) (time next_f : Z) :
  sugov_up_down_rate_limit sg time next_f = false ->
  next_freq sg <> next_f ->
  let sg' := (sugov_update_commit sg p env time next_f).1.1 in
  next_freq sg' = next_f /\ last_freq_update_time sg' = time
  /\ cached_raw_freq sg' = cached_raw_freq sg.
Proof.
  intros Hgate Hne. unfold sugov_update_commit. rewrite Hgate.
  destruct (Z.eqb_spec (next_freq sg) next_f); [done|].
  destruct (fast_switch_enabled p).
  - destruct (_ =? CPUFREQ_ENTRY_INVALID); done.
  - destruct (_ <? 0); done.
Qed.

(** C4.  A target is committed only when it rises with the up-delay elapsed
    or falls with the down-delay elapsed; otherwise target, timestamp,
    in-flight flag and policy stay as they are and nothing is dispatched.
    A target blocked by the gate zeroes the cached raw frequency and changes
    nothing else.  With 2000us up and 20000us down, a rising target is
    blocked 1000us after the last commit and committed 2001us after it. *)
Theorem sugov_update_commit_rate_limit :
  (forall (sg : sugov_policy) (p : cpufreq_policy) (env : sched_env)
          (time next_f : Z),
     let d := delta_ns time (last_freq_update_time sg) in
     let allowed :=
       (next_freq sg < next_f /\ up_rate_delay_ns sg <= d)
       \/ (next_f < next_freq sg /\ down_rate_delay_ns sg <= d) in
     let '(sg', p', evs) := sugov_update_commit sg p env time next_f in
     (allowed -> next_freq sg' = next_f /\ last_freq_update_time sg' = time)
     /\ (~ allowed ->
         next_freq sg' = next_freq sg
         /\ last_freq_update_time sg' = last_freq_update_time sg
         /\ work_in_progress sg' = work_in_progress sg
         /\ p' = p /\ evs = [])
     /\ (sugov_up_down_rate_limit sg time next_f = true ->
         sg' = set_cached_raw_freq 0 sg /\ p' = p /\ evs = []))
  /\ (forall (sg : sugov_policy) (p : cpufreq_policy) (env : sched_env)
             (next_f : Z),
        up_rate_delay_ns sg = 2000 * 1000 ->
        down_rate_delay_ns sg = 20000 * 1000 ->
        next_freq sg < next_f ->
        let last := last_freq_update_time sg in
        sugov_update_commit sg p env (u64 (last + 1000 * 1000)) next_f
          = (set_cached_raw_freq 0 sg, p, [])
        /\ let sg' :=
             (sugov_update_commit sg p env (u64 (last + 2001 * 1000)) next_f).1.1 in
           next_freq sg' = next_f
           /\ last_freq_update_time sg' = u64 (last + 2001 * 1000)).
Proof.
  split.
  - intros sg p env time next_f d allowed.
    destruct (sugov_update_commit sg p env time next_f) as [[sg' p'] evs] eqn:E.
    destruct (sugov_up_down_rate_limit sg time next_f) eqn:Hgate.
    + rewrite sugov_update_commit_blocked in E by done.
      injection E as <- <- <-.
      apply sugov_up_down_rate_limit_true in Hgate.
      subst allowed d. simpl. repeat split; try done; lia.
    + assert (~ ((next_freq sg < next_f
                  /\ delta_ns time (last_freq_update_time sg) < up_rate_delay_ns sg)
                 \/ (next_f < next_freq sg
                     /\ delta_ns time (last_freq_update_time sg)
                        < down_rate_delay_ns sg))) as Hn.
      { rewrite <- sugov_up_down_rate_limit_true. congruence. }
      destruct (Z.eq_dec (next_freq sg) next_f) as [Heq|Hne].
      * subst next_f. rewrite sugov_update_commit_same in E.
        injection E as <- <- <-. subst allowed d.
        repeat split; try done; lia.
      * pose proof (sugov_update_commit_passed sg p env time next_f Hgate Hne) as H.
        rewrite E in H. simpl in H. destruct H as (H1 & H2 & _).
        subst allowed d. repeat split; try done; lia.
  - intros sg p env next_f Hup Hdown Hlt last. split.
    + apply sugov_update_commit_blocked, sugov_up_down_rate_limit_true.
      left. split; [done|]. subst last. rewrite delta_ns_after; lia.
    + assert (sugov_up_down_rate_limit sg (u64 (last + 2001 * 1000)) next_f
              = false) as Hgate.
      { destruct (sugov_up_down_rate_limit _ _ _) eqn:E; [|done].
        apply sugov_up_down_rate_limit_true in E. subst last.
        rewrite delta_ns_after in E; lia. }
      pose proof (sugov_update_commit_passed sg p env _ next_f Hgate) as H.
      simpl in H. destruct H as (H1 & H2 & _); [lia|]. done.
Qed.

(** C6 (as amended).  While a deferred apply is in flight the gate skips and
    leaves the group as it is, whatever the forced-recompute flag says.
    With no apply in flight, a set flag invalidates the committed target to
    [UINT_MAX], is cleared, and lets the gate pass whatever the elapsed
    time; with the flag clear the gate passes exactly when the elapsed time
    has reached the minimum delay, and changes nothing. *)
Theorem sugov_should_update_freq_gate (sg : sugov_policy) (time : Z) :
  (work_in_progress sg = true ->
   sugov_should_update_freq sg time = (sg, false))
  /\ (work_in_progress sg = false -> need_freq_update sg = true ->
      let '(sg', go) := sugov_should_update_freq sg time in
      go = true /\ next_freq sg' = UINT_MAX /\ need_freq_update sg' = false
      /\ sg' = set_next_freq UINT_MAX (set_need_freq_update false sg))
  /\ (work_in_progress sg = false -> need_freq_update sg = false ->
      let '(sg', go) := sugov_should_update_freq sg time in
      sg' = sg
      /\ (go = true <->
          min_rate_limit_ns sg <= delta_ns time (last_freq_update_time sg))).
Proof.
  unfold sugov_should_update_freq. repeat split.
  - intros ->. reflexivity.
  - intros -> ->. done.
  - intros -> ->. split; [done|]. apply Z.leb_le.
Qed.


Lemma sugov_set_iowait_boost_eq (c : sugov_cpu) (time fl : Z) :
  sugov_set_iowait_boost c time fl = set_iowait_boost 0 c.
Proof.
  unfold sugov_set_iowait_boost.
  destruct (flag_set fl SCHED_CPUFREQ_IOWAIT); [done|].
  destruct (negb (iowait_boost c =? 0)); [|done].
  destruct (TICK_NSEC <? delta_ns time (last_update c)); done.
Qed.

(** C1 (as amended).  Whatever the flags of the sample and whatever the time
    since the core's previous update, the intake returns with the core's
    iowait boost at zero and every other field of the core untouched. *)
Theorem sugov_set_iowait_boost_blocked (c : sugov_cpu) (time fl : Z) :
  iowait_boost (sugov_set_iowait_boost c time fl) = 0
  /\ sugov_set_iowait_boost c time fl = set_iowait_boost 0 c.
Proof. split; [reflexivity|apply sugov_set_iowait_boost_eq]. Qed.

(** *** The frequency selector *)

Lemma freqvar_tipping_point_exact (cpu : nat) (f : Z) :
  0 <= f -> f + f / 4 <= UINT_MAX ->
  freqvar_tipping_point cpu f = f + f / 4.
Proof.
  intros Hf Hmax. unfold freqvar_tipping_point, u32.
  rewrite Z.shiftr_div_pow2 by lia. change (2 ^ 2) with 4.
  assert (0 <= f / 4) by (apply Z.div_pos; lia).
  apply Z.mod_small. unfold UINT_MAX in Hmax. lia.
Qed.

Lemma raw_freq_exact (p : cpufreq_policy) (u c : Z) :
  let f_ref := if arch_scale_freq_invariant then policy_max p else policy_cur p in
  let tp := f_ref + f_ref / 4 in
  0 < c -> 0 <= f_ref -> 0 <= u ->
  tp <= UINT_MAX -> tp * u <= ULONG_MAX -> tp * u / c <= UINT_MAX ->
  raw_freq p u c = tp * u / c.
Proof.
  intros f_ref tp Hc Hf Hu H32 H64 Hres. unfold raw_freq. fold f_ref.
  rewrite freqvar_tipping_point_exact by done. fold tp.
  assert (0 <= tp) by (subst tp; assert (0 <= f_ref / 4) by (apply Z.div_pos; lia); lia).
  assert (0 <= tp * u) by (apply Z.mul_nonneg_nonneg; lia).
  assert (0 <= tp * u / c) by (apply Z.div_pos; lia).
  unfold u32, u64. unfold UINT_MAX, ULONG_MAX in *.
  rewrite (Z.mod_small (tp * u)) by lia.
  apply Z.mod_small. lia.
Qed.


(** C9 (as amended).  With a driver whose resolution is monotone, a
    candidate computation that does not wrap, and both utilisations on the
    same side of the cache (both answered from it or both resolved),
    [u1 <= u2] gives a selected frequency for [u1] that is at most the one
    for [u2]. *)
Theorem get_next_freq_monotone (sg : sugov_policy) (p : cpufreq_policy)
  (u1 u2 c : Z) :
  let f_ref := if arch_scale_freq_invariant then policy_max p else policy_cur p in
  let tp := f_ref + f_ref / 4 in
  (forall f1 f2, f1 <= f2 ->
     cpufreq_driver_resolve_freq p f1 <= cpufreq_driver_resolve_freq p f2) ->
  0 < c -> 0 <= u1 <= u2 -> 0 <= f_ref ->
  tp <= UINT_MAX -> tp * u2 <= ULONG_MAX -> tp * u2 / c <= UINT_MAX ->
  cache_hit sg p u1 c = cache_hit sg p u2 c ->
  (get_next_freq sg p u1 c).2 <= (get_next_freq sg p u2 c).2.
Proof.
  intros f_ref tp Hmono Hc Hu Hf H32 H64 Hres Hside.
  assert (0 <= tp)
    by (subst tp; assert (0 <= f_ref / 4) by (apply Z.div_pos; lia); lia).
  assert (tp * u1 <= tp * u2) by (apply Z.mul_le_mono_nonneg_l; lia).
  assert (tp * u1 / c <= tp * u2 / c) by (apply Z.div_le_mono; lia).
  assert (raw_freq p u1 c = tp * u1 / c) as E1
    by (apply raw_freq_exact; fold f_ref; fold tp; lia).
  assert (raw_freq p u2 c = tp * u2 / c) as E2
    by (apply raw_freq_exact; fold f_ref; fold tp; lia).
  unfold cache_hit in Hside. unfold get_next_freq.
  rewrite <- Hside.
  destruct ((raw_freq p u1 c =? cached_raw_freq sg)
            && negb (next_freq sg =? UINT_MAX)); simpl; [lia|].
  apply Hmono. lia.
Qed.

(** The table driver resolves monotonically when its table ascends. *)
Lemma cpufreq_frequency_table_target_in (table : list Z) (target : Z) :
  table <> [] -> In (cpufreq_frequency_table_target table target) table.
Proof.
  induction table as [|f rest IH]; [done|]. intros _.
  destruct rest as [|g rest'].
  - simpl. now left.
  - change (cpufreq_frequency_table_target (f :: g :: rest') target)
      with (if target <=? f then f
            else cpufreq_frequency_table_target (g :: rest') target).
    destruct (target <=? f); [now left|]. right. now apply IH.
Qed.

Lemma cpufreq_frequency_table_target_mono (table : list Z) (t1 t2 : Z) :
  StronglySorted Z.le table -> t1 <= t2 ->
  cpufreq_frequency_table_target table t1
  <= cpufreq_frequency_table_target table t2.
Proof.
  intros Hsorted Ht. induction table as [|f rest IH]; [simpl; lia|].
  destruct rest as [|g rest'].
  - simpl. lia.
  - change (cpufreq_frequency_table_target (f :: g :: rest') t1)
      with (if t1 <=? f then f
            else cpufreq_frequency_table_target (g :: rest') t1).
    change (cpufreq_frequency_table_target (f :: g :: rest') t2)
      with (if t2 <=? f then f
            else cpufreq_frequency_table_target (g :: rest') t2).
    apply StronglySorted_inv in Hsorted as [Hrest Hall].
    destruct (Z.leb_spec t1 f); destruct (Z.leb_spec t2 f); try lia.
    + rewrite Forall_forall in Hall. apply Hall.
      apply list_elem_of_In, cpufreq_frequency_table_target_in. done.
    + now apply IH.
Qed.

Lemma table_resolve_freq_mono (table : list Z) (p : cpufreq_policy)
  (f1 f2 : Z) :
  StronglySorted Z.le table -> f1 <= f2 ->
  table_resolve_freq table p f1 <= table_resolve_freq table p f2.
Proof.
  intros Hsorted Hf. unfold table_resolve_freq, clamp_val.
  apply cpufreq_frequency_table_target_mono; [done|lia].
Qed.


(** *** The single-cpu update *)

Lemma sugov_iowait_boost_inert (c : sugov_cpu) (u m : Z) :
  iowait_boost c = 0 -> sugov_iowait_boost c u m = (c, u, m).
Proof. intros H. unfold sugov_iowait_boost. now rewrite H. Qed.

Lemma sugov_should_update_freq_frame (sg sg1 : sugov_policy) (time : Z)
  (go : bool) :
  sugov_should_update_freq sg time = (sg1, go) ->
  last_freq_update_time sg1 = last_freq_update_time sg
  /\ work_in_progress sg1 = work_in_progress sg
  /\ cached_raw_freq sg1 = cached_raw_freq sg
  /\ (need_freq_update sg = false -> sg1 = sg).
Proof.
  unfold sugov_should_update_freq.
  destruct (work_in_progress sg) eqn:Hw; [intros [= <- <-]; done|].
  destruct (need_freq_update sg) eqn:Hn; intros [= <- <-]; done.
Qed.

Lemma get_next_freq_frame (sg : sugov_policy) (p : cpufreq_policy) (u m : Z) :
  let sg' := (get_next_freq sg p u m).1 in
  next_freq sg' = next_freq sg
  /\ last_freq_update_time sg' = last_freq_update_time sg
  /\ work_in_progress sg' = work_in_progress sg.
Proof. unfold get_next_freq. destruct (_ && _); done. Qed.

(** C10.  On a single-cpu policy, when the gate lets the update through, the
    sample is not a deadline one, the cpu has seen no idle call since the
    previous evaluation, and the frequency selected for the sample is below
    the committed target, the update keeps the committed target (the one
    the gate left, which is the group's previous target unless a forced
    recompute invalidated it), zeroes the cached raw frequency, and neither
    moves the timestamp nor dispatches anything. *)
Theorem sugov_update_single_busy_holds (c : sugov_cpu) (sg sg1 : sugov_policy)
  (p : cpufreq_policy) (env : sched_env) (time fl : Z) :
  sugov_should_update_freq sg time = (sg1, true) ->
  flag_set fl SCHED_CPUFREQ_DL = false ->
  tick_nohz_get_idle_calls env = saved_idle_calls c ->
  (get_next_freq sg1 p (sugov_get_util env).1 (sugov_get_util env).2).2
    < next_freq sg1 ->
  let '(c', sg', p', evs) := sugov_update_single c sg p env time fl in
  next_freq sg' = next_freq sg1
  /\ (need_freq_update sg = false -> next_freq sg' = next_freq sg)
  /\ cached_raw_freq sg' = 0
  /\ last_freq_update_time sg' = last_freq_update_time sg
  /\ work_in_progress sg' = work_in_progress sg
  /\ p' = p /\ evs = [].
Proof.
  intros Hgate Hdl Hbusy Hlower.
  destruct (sugov_should_update_freq_frame _ _ _ _ Hgate) as (Ht & Hw & _ & Hsame).
  unfold sugov_update_single. rewrite Hgate. simpl negb. cbv iota.
  unfold sugov_cpu_is_busy. rewrite Hdl.
  destruct (sugov_get_util env) as [u m] eqn:Hutil. simpl in Hlower.
  rewrite sugov_iowait_boost_inert by reflexivity.
  rewrite sugov_set_iowait_boost_eq. simpl.
  rewrite Hbusy, Z.eqb_refl.
  destruct (get_next_freq sg1 p u m) as [sg2 next_f] eqn:Hsel.
  pose proof (get_next_freq_frame sg1 p u m) as Hframe.
  rewrite Hsel in Hframe. simpl in Hframe, Hlower.
  destruct Hframe as (Hn2 & Ht2 & Hw2).
  assert ((next_f <? next_freq sg2) = true) as -> by (apply Z.ltb_lt; lia).
  simpl andb. cbv iota.
  change (next_freq sg2) with (next_freq (set_cached_raw_freq 0 sg2)) at 1.
  rewrite sugov_update_commit_same. simpl.
  repeat split; try congruence.
  intros Hno. rewrite Hn2. f_equal. auto.
Qed.

(** *** The min-QoS notifier *)

(** A class is resolved to the first possible cpu that belongs to it and is
    active; without one the answer is negative. *)
Lemma find_cpu_pm_qos_class_spec (g : governor) (pm_qos_class : Z) :
  (exists cpu : nat,
     find_cpu_pm_qos_class g pm_qos_class = Z.of_nat cpu
     /\ (cpu < nr_cpu_ids)%nat
     /\ cpumask_test_cpu cpu (cpu_possible_mask g) = true
     /\ cpumask_test_cpu cpu (cpu_active_mask g) = true
     /\ qos_min_class (pcpu_sugov_exynos g !!! cpu) = pm_qos_class)
  \/ find_cpu_pm_qos_class g pm_qos_class = - EINVAL.
Proof.
  unfold find_cpu_pm_qos_class.
  destruct (List.find _ _) as [cpu|] eqn:E; [left|right; done].
  apply List.find_some in E as [Hin Hp]. exists cpu.
  unfold for_each_cpu in Hin. apply List.filter_In in Hin as [Hseq Hposs].
  apply List.in_seq in Hseq.
  apply andb_true_iff in Hp as [Hclass Hact]. apply Z.eqb_eq in Hclass.
  repeat split; try done. lia.
Qed.

Lemma sugov_pm_qos_callback_resolved (g : governor) (val pm_qos_class : Z)
  (cpu a ptr : nat) (sgp : sugov_policy) (p : cpufreq_policy) :
  find_cpu_pm_qos_class g pm_qos_class = Z.of_nat cpu ->
  sg_policy (pcpu_sugov_cpu g !!! cpu) = Some a ->
  sg_policies g !! a = Some sgp ->
  policy sgp = Some ptr ->
  cpufreq_cpu_get g cpu = Some p ->
  sugov_pm_qos_callback g val pm_qos_class
  = if policy_cur p <=? val then (NOTIFY_BAD, [])
    else (NOTIFY_OK, [cpufreq_driver_target p (next_freq sgp)]).
Proof.
  intros Hfind Hsg Hobj Hpol Hget. unfold sugov_pm_qos_callback.
  rewrite Hfind, Nat2Z.id.
  destruct (Z.ltb_spec (Z.of_nat cpu) 0); [lia|].
  rewrite Hsg. simpl. rewrite Hobj, Hpol, Hget. done.
Qed.

Lemma sugov_pm_qos_callback_acts (g : governor) (val pm_qos_class : Z)
  (ret : notify) (evs : list event) :
  sugov_pm_qos_callback g val pm_qos_class = (ret, evs) ->
  evs <> [] ->
  exists (cpu a : nat) (sgp : sugov_policy) (p : cpufreq_policy),
    find_cpu_pm_qos_class g pm_qos_class = Z.of_nat cpu
    /\ sg_policy (pcpu_sugov_cpu g !!! cpu) = Some a
    /\ sg_policies g !! a = Some sgp
    /\ cpufreq_cpu_get g cpu = Some p
    /\ val < policy_cur p
    /\ ret = NOTIFY_OK
    /\ evs = [cpufreq_driver_target p (next_freq sgp)].
Proof.
  unfold sugov_pm_qos_callback. intros Hrun Hevs.
  destruct (find_cpu_pm_qos_class_spec g pm_qos_class)
    as [(cpu & Hfind & _)|Hnone].
  - rewrite Hfind, Nat2Z.id in Hrun.
    destruct (Z.ltb_spec (Z.of_nat cpu) 0); [lia|].
    destruct (sg_policy (pcpu_sugov_cpu g !!! cpu)) as [a|] eqn:Hsg;
      simpl in Hrun; [|injection Hrun as <- <-; done].
    destruct (sg_policies g !! a) as [sgp|] eqn:Hobj;
      [|injection Hrun as <- <-; done].
    destruct (policy sgp) as [ptr|]; [|injection Hrun as <- <-; done].
    destruct (cpufreq_cpu_get g cpu) as [p|] eqn:Hget;
      [|injection Hrun as <- <-; done].
    destruct (Z.leb_spec (policy_cur p) val);
      injection Hrun as <- <-; [done|].
    exists cpu, a, sgp, p. done.
  - rewrite Hnone in Hrun. simpl in Hrun. injection Hrun as <- <-. done.
Qed.

(** C7.  The handler resolves the class to an active cpu of that class; a
    hardware action, when there is one, is a single blocking set of the
    policy of that cpu to the committed target of the cpu's group, and the
    floor is then strictly below the policy's current frequency.  With the
    cpu, its group and its policy resolved, a floor strictly below the
    current frequency gives exactly that action, and a floor at or above it
    gives no hardware action at all. *)
Theorem sugov_pm_qos_callback_enforces (g : governor) (val pm_qos_class : Z) :
  let '(ret, evs) := sugov_pm_qos_callback g val pm_qos_class in
  (evs <> [] ->
   exists (cpu a : nat) (sgp : sugov_policy) (p : cpufreq_policy),
     find_cpu_pm_qos_class g pm_qos_class = Z.of_nat cpu
     /\ cpumask_test_cpu cpu (cpu_active_mask g) = true
     /\ qos_min_class (pcpu_sugov_exynos g !!! cpu) = pm_qos_class
     /\ sg_policy (pcpu_sugov_cpu g !!! cpu) = Some a
     /\ sg_policies g !! a = Some sgp
     /\ cpufreq_cpu_get g cpu = Some p
     /\ val < policy_cur p
     /\ evs = [cpufreq_driver_target p (next_freq sgp)])
  /\ (forall (cpu a ptr : nat) (sgp : sugov_policy) (p : cpufreq_policy),
        find_cpu_pm_qos_class g pm_qos_class = Z.of_nat cpu ->
        sg_policy (pcpu_sugov_cpu g !!! cpu) = Some a ->
        sg_policies g !! a = Some sgp ->
        policy sgp = Some ptr ->
        cpufreq_cpu_get g cpu = Some p ->
        (val < policy_cur p ->
         ret = NOTIFY_OK /\ evs = [cpufreq_driver_target p (next_freq sgp)])
        /\ (policy_cur p <= val -> ret = NOTIFY_BAD /\ evs = [])).
Proof.
  destruct (sugov_pm_qos_callback g val pm_qos_class) as [ret evs] eqn:Hrun.
  split.
  - intros Hevs.
    destruct (sugov_pm_qos_callback_acts _ _ _ _ _ Hrun Hevs)
      as (cpu & a & sgp & p & Hfind & Hsg & Hobj & Hget & Hlt & _ & ->).
    exists cpu, a, sgp, p.
    destruct (find_cpu_pm_qos_class_spec g pm_qos_class)
      as [(cpu' & Hfind' & _ & _ & Hact & Hclass)|Hnone].
    + assert (cpu' = cpu) as -> by lia. done.
    + unfold EINVAL in Hnone. lia.
  - intros cpu a ptr sgp p Hfind Hsg Hobj Hpol Hget.
    rewrite (sugov_pm_qos_callback_resolved _ _ _ _ _ _ _ _
               Hfind Hsg Hobj Hpol Hget) in Hrun.
    destruct (Z.leb_spec (policy_cur p) val); injection Hrun as <- <-;
      split; intros; try done; lia.
Qed.

(** C2 (as amended).  For a class that resolves to an active cpu with its
    group and policy: a new floor below the policy's current frequency
    makes exactly one blocking hardware call, with the group's
    last-committed target; a new floor at or above the current frequency
    makes none. *)
Theorem sugov_pm_qos_callback_calls (g : governor) (val pm_qos_class : Z)
  (cpu a ptr : nat) (sgp : sugov_policy) (p : cpufreq_policy) :
  find_cpu_pm_qos_class g pm_qos_class = Z.of_nat cpu ->
  sg_policy (pcpu_sugov_cpu g !!! cpu) = Some a ->
  sg_policies g !! a = Some sgp ->
  policy sgp = Some ptr ->
  cpufreq_cpu_get g cpu = Some p ->
  let calls := (sugov_pm_qos_callback g val pm_qos_class).2 in
  (val < policy_cur p ->
   length calls = 1%nat
   /\ calls = [cpufreq_driver_target p (next_freq sgp)])
  /\ (policy_cur p <= val -> length calls = 0%nat /\ calls = []).
Proof.
  intros Hfind Hsg Hobj Hpol Hget calls. subst calls.
  rewrite (sugov_pm_qos_callback_resolved _ _ _ _ _ _ _ _
             Hfind Hsg Hobj Hpol Hget).
  destruct (Z.leb_spec (policy_cur p) val); split; intros; try done; lia.
Qed.

(** *** The shared aggregation *)

Lemma u64_small (z : Z) : 0 <= z < 2 ^ 64 -> u64 z = z.
Proof. intros. unfold u64. now apply Z.mod_small. Qed.

Lemma u64_mul_in_range (a b : Z) :
  0 <= a < 2 ^ 32 -> 0 <= b < 2 ^ 32 -> u64 (a * b) = a * b.
Proof.
  intros Ha Hb. apply u64_small.
  change (2 ^ 64) with (2 ^ 32 * 2 ^ 32). nia.
Qed.

Lemma boosted_pair_in_range (c : sugov_cpu) :
  cpu_in_range c -> pair_in_range (boosted_pair c).
Proof.
  intros (Hp & Hb & Hbm). unfold boosted_pair.
  destruct (Z.eqb_spec (iowait_boost c) 0); [done|].
  destruct (_ <? _); [|done].
  unfold pair_in_range. simpl. specialize (Hbm ltac:(done)). lia.
Qed.

(** One round of the loop on a fresh core without the deadline flag: the
    comparison with the running pair followed by the boost substitution on
    the winner gives what the comparison with the core's boosted pair
    gives. *)
Lemma shared_round (c : sugov_cpu) (u m : Z) :
  cpu_in_range c -> pair_in_range (u, m) ->
  let '(u1, m1) :=
    if u64 (max c * u) <? u64 (util c * m) then (util c, max c) else (u, m) in
  sugov_iowait_boost c u1 m1
  = (decayed c,
     (if ratio_lt (u, m) (boosted_pair c) then boosted_pair c else (u, m)).1,
     (if ratio_lt (u, m) (boosted_pair c) then boosted_pair c else (u, m)).2).
Proof.
  intros ((Hu & Hm) & Hb & Hbm) (Hru & Hrm). simpl in *.
  rewrite !u64_mul_in_range by lia.
  unfold sugov_iowait_boost, decayed, boosted_pair, ratio_lt.
  destruct (Z.eqb_spec (iowait_boost c) 0) as [Hz|Hnz].
  - simpl. destruct (Z.ltb_spec (max c * u) (util c * m));
      destruct (Z.ltb_spec (u * max c) (util c * m)); simpl; try done; lia.
  - specialize (Hbm Hnz).
    destruct (Z.ltb_spec (max c * u) (util c * m)) as [H1|H1].
    + rewrite !u64_mul_in_range by lia.
      destruct (Z.ltb_spec (util c * iowait_boost_max c)
                  (max c * iowait_boost c)) as [H2|H2]; simpl.
      * destruct (Z.ltb_spec (u * iowait_boost_max c) (iowait_boost c * m));
          [done|]. exfalso. nia.
      * destruct (Z.ltb_spec (u * max c) (util c * m)); [done|lia].
    + rewrite !u64_mul_in_range by lia.
      destruct (Z.ltb_spec (util c * iowait_boost_max c)
                  (max c * iowait_boost c)) as [H2|H2]; simpl.
      * destruct (Z.ltb_spec (u * iowait_boost_max c) (m * iowait_boost c));
          destruct (Z.ltb_spec (u * iowait_boost_max c) (iowait_boost c * m));
          try done; lia.
      * destruct (Z.ltb_spec (u * max c) (util c * m)); [lia|].
        destruct (Z.ltb_spec (u * iowait_boost_max c) (m * iowait_boost c));
          [|done]. exfalso. nia.
Qed.

Section Loop.
Variable time : Z.

Lemma fresh_cpus_cons (cpus : list sugov_cpu) (j : nat) (js : list nat) :
  fresh_cpus cpus time (j :: js)
  = if stale time (cpus !!! j) then fresh_cpus cpus time js
    else (cpus !!! j) :: fresh_cpus cpus time js.
Proof. unfold fresh_cpus. simpl. now destruct (stale time (cpus !!! j)). Qed.

Lemma fresh_cpus_insert (cpus : list sugov_cpu) (j : nat) (x : sugov_cpu)
  (js : list nat) :
  ~ In j js -> fresh_cpus (<[j := x]> cpus) time js = fresh_cpus cpus time js.
Proof.
  intros Hj. unfold fresh_cpus. f_equal. apply List.map_ext_in.
  intros k Hk. apply list_lookup_total_insert_ne. congruence.
Qed.

Lemma best_pair_cons (x : Z * Z) (xs : list (Z * Z)) (start : Z * Z) :
  best_pair (x :: xs) start
  = best_pair xs (if ratio_lt start x then x else start).
Proof. reflexivity. Qed.

(** A fresh deadline core among [js] makes the loop return early. *)
Lemma shared_loop_deadline (js : list nat) :
  forall (cpus : list sugov_cpu) (u m : Z),
    List.NoDup js ->
    existsb deadline (fresh_cpus cpus time js) = true ->
    (sugov_next_freq_shared_loop cpus time js u m).2 = None.
Proof.
  induction js as [|j js IH]; intros cpus u m Hnd Hdl; [done|].
  apply List.NoDup_cons_iff in Hnd as [Hj Hnd].
  rewrite fresh_cpus_cons in Hdl. simpl.
  fold (stale time (cpus !!! j)). fold (deadline (cpus !!! j)).
  destruct (stale time (cpus !!! j)).
  - apply IH; [done|]. now rewrite fresh_cpus_insert.
  - simpl in Hdl. destruct (deadline (cpus !!! j)); [done|].
    destruct (if u64 _ <? u64 _ then _ else _) as [u1 m1].
    destruct (sugov_iowait_boost (cpus !!! j) u1 m1) as [[c' u2] m2].
    apply IH; [done|]. now rewrite fresh_cpus_insert.
Qed.

(** Without one, every core of [js] is visited once: a stale core has its
    boost cleared, a fresh core has its boost decayed, and no other entry
    of the per-cpu array changes. *)
Lemma sugov_iowait_boost_state (c : sugov_cpu) (u m : Z) :
  (sugov_iowait_boost c u m).1.1 = decayed c.
Proof.
  unfold sugov_iowait_boost, decayed.
  destruct (iowait_boost c =? 0); [done|]. now destruct (_ <? _).
Qed.

Lemma shared_loop_state (js : list nat) :
  forall (cpus : list sugov_cpu) (u m : Z),
    List.NoDup js ->
    (forall j, In j js -> (j < length cpus)%nat) ->
    existsb deadline (fresh_cpus cpus time js) = false ->
    let r := sugov_next_freq_shared_loop cpus time js u m in
    (forall j, In j js ->
       r.1 !!! j = if stale time (cpus !!! j)
                   then set_iowait_boost 0 (cpus !!! j)
                   else decayed (cpus !!! j))
    /\ (forall j, ~ In j js -> r.1 !!! j = cpus !!! j).
Proof.
  induction js as [|j js IH]; intros cpus u m Hnd Hlen Hdl; [done|].
  apply List.NoDup_cons_iff in Hnd as [Hj Hnd].
  assert ((j < length cpus)%nat) as Hjlen by (apply Hlen; now left).
  rewrite fresh_cpus_cons in Hdl. simpl.
  fold (stale time (cpus !!! j)). fold (deadline (cpus !!! j)).
  assert (forall (x : sugov_cpu) (u' m' : Z),
            x = (if stale time (cpus !!! j)
                 then set_iowait_boost 0 (cpus !!! j)
                 else decayed (cpus !!! j)) ->
            existsb deadline (fresh_cpus cpus time js) = false ->
            let r := sugov_next_freq_shared_loop (<[j := x]> cpus) time js u' m' in
            (forall k, In k (j :: js) ->
               r.1 !!! k = if stale time (cpus !!! k)
                           then set_iowait_boost 0 (cpus !!! k)
                           else decayed (cpus !!! k))
            /\ (forall k, ~ In k (j :: js) -> r.1 !!! k = cpus !!! k)) as Hstep.
  { intros x u' m' Hx Hrest.
    specialize (IH (<[j := x]> cpus) u' m' Hnd).
    rewrite fresh_cpus_insert in IH by done.
    destruct IH as (Hin & Hout); try done.
    { intros k Hk. rewrite length_insert. apply Hlen. now right. }
    split.
    - intros k [<-|Hk].
      + rewrite Hout by done. rewrite <- Hx.
        now apply list_lookup_total_insert_eq.
      + rewrite Hin by done.
        rewrite list_lookup_total_insert_ne by congruence. done.
    - intros k Hk. rewrite Hout by (intros ?; apply Hk; now right).
      apply list_lookup_total_insert_ne. intros ->. apply Hk. now left. }
  destruct (stale time (cpus !!! j)) eqn:Hstale.
  - apply Hstep; done.
  - simpl in Hdl. apply orb_false_iff in Hdl as [Hnodl Hdl]. rewrite Hnodl.
    destruct (if u64 _ <? u64 _ then _ else _) as [u1 m1].
    pose proof (sugov_iowait_boost_state (cpus !!! j) u1 m1) as Hc.
    destruct (sugov_iowait_boost (cpus !!! j) u1 m1) as [[c' u2] m2].
    simpl in Hc. apply Hstep; done.
Qed.

(** The pair it ends with is the best of the boosted pairs of the fresh
    cores, when their values are in range. *)
Lemma shared_loop_best (js : list nat) :
  forall (cpus : list sugov_cpu) (u m : Z),
    List.NoDup js ->
    existsb deadline (fresh_cpus cpus time js) = false ->
    Forall cpu_in_range (fresh_cpus cpus time js) ->
    pair_in_range (u, m) ->
    (sugov_next_freq_shared_loop cpus time js u m).2
    = Some (best_pair (List.map boosted_pair (fresh_cpus cpus time js)) (u, m)).
Proof.
  induction js as [|j js IH]; intros cpus u m Hnd Hdl Hwf Hpair; [done|].
  apply List.NoDup_cons_iff in Hnd as [Hj Hnd].
  rewrite fresh_cpus_cons in Hdl, Hwf |- *. simpl.
  fold (stale time (cpus !!! j)). fold (deadline (cpus !!! j)).
  destruct (stale time (cpus !!! j)) eqn:Hstale.
  - rewrite IH; rewrite ?fresh_cpus_insert; done.
  - simpl in Hdl. apply orb_false_iff in Hdl as [Hnodl Hdl]. rewrite Hnodl.
    apply Forall_cons in Hwf as [Hc Hwf].
    pose proof (shared_round (cpus !!! j) u m Hc Hpair) as Hround.
    destruct (if u64 _ <? u64 _ then _ else _) as [u1 m1].
    rewrite Hround. clear Hround.
    set (w := if ratio_lt (u, m) (boosted_pair (cpus !!! j))
              then boosted_pair (cpus !!! j) else (u, m)).
    rewrite IH; rewrite ?fresh_cpus_insert; try done.
    + simpl List.map. rewrite best_pair_cons. fold w. now destruct w.
    + subst w. destruct (ratio_lt _ _); [|done].
      pose proof (boosted_pair_in_range _ Hc) as H.
      now destruct (boosted_pair (cpus !!! j)).
Qed.

End Loop.

Lemma ratio_le_trans (a b c : Z * Z) :
  0 <= a.2 -> 0 < b.2 -> 0 <= c.2 ->
  a.1 * b.2 <= b.1 * a.2 -> b.1 * c.2 <= c.1 * b.2 ->
  a.1 * c.2 <= c.1 * a.2.
Proof.
  destruct a as [a1 a2], b as [b1 b2], c as [c1 c2]. simpl.
  intros Ha Hb Hc H1 H2.
  assert (a1 * b2 * c2 <= b1 * a2 * c2) by nia.
  assert (b1 * c2 * a2 <= c1 * b2 * a2) by nia.
  nia.
Qed.

(** The winner of the cross-multiplied comparison is the start pair or one
    of the candidates, and no candidate has a higher ratio. *)
Lemma best_pair_max (pairs : list (Z * Z)) :
  forall start : Z * Z,
    pair_in_range start -> Forall pair_in_range pairs ->
    let w := best_pair pairs start in
    pair_in_range w
    /\ (w = start \/ In w pairs)
    /\ start.1 * w.2 <= w.1 * start.2
    /\ (forall x, In x pairs -> x.1 * w.2 <= w.1 * x.2).
Proof.
  induction pairs as [|x xs IH]; intros start Hs Hall.
  - simpl. split; [done|]. split; [now left|]. split; [lia|]. intros x [].
  - apply Forall_cons in Hall as [Hx Hall]. rewrite best_pair_cons.
    set (s' := if ratio_lt start x then x else start).
    assert (pair_in_range s') as Hs' by (subst s'; now destruct (ratio_lt _ _)).
    assert (start.1 * s'.2 <= s'.1 * start.2 /\ x.1 * s'.2 <= s'.1 * x.2)
      as [Hss Hxs].
    { subst s'. unfold ratio_lt.
      destruct (Z.ltb_spec (start.1 * x.2) (x.1 * start.2)); lia. }
    destruct (IH s' Hs' Hall) as (Hw & Hmem & Hge & Hmax).
    cbv zeta. split; [done|]. split; [|split].
    + destruct Hmem as [->|Hin]; [|right; now right].
      subst s'. destruct (ratio_lt start x); [right|]; now left.
    + apply (ratio_le_trans start s' _);
        unfold pair_in_range in *; try lia.
    + intros y [<-|Hy]; [|now apply Hmax].
      apply (ratio_le_trans x s' _); unfold pair_in_range in *; try lia.
Qed.

Lemma pair_in_range_start : pair_in_range (0, 1).
Proof. unfold pair_in_range. cbn [fst snd]. lia. Qed.

Lemma for_each_cpu_spec (n : nat) (m : cpumask) (j : nat) :
  In j (for_each_cpu n m) <-> (j < n)%nat /\ cpumask_test_cpu j m = true.
Proof.
  unfold for_each_cpu. rewrite List.filter_In, List.in_seq. intuition lia.
Qed.

Lemma for_each_cpu_NoDup (n : nat) (m : cpumask) :
  List.NoDup (for_each_cpu n m).
Proof. apply List.NoDup_filter, List.seq_NoDup. Qed.

(** C5.  The aggregator walks the online member cores.  A core whose last
    sample is more than one tick old is skipped and has its boost cleared.
    If a core that is not stale carries the deadline flag, the result is the
    domain's maximum frequency and the selector is not consulted.
    Otherwise every stale core's boost is cleared and every fresh core's
    boost is halved once, and, for cores with positive capacities and
    values below 2^32, the pair handed to the frequency selector is the
    best, by cross-multiplication, of the cores' pairs after each core's own
    boost substitution: it is one of them (or the start pair (0, 1)) and no
    fresh core's substituted pair has a higher ratio. *)
Theorem sugov_next_freq_shared_aggregates (cpus : list sugov_cpu)
  (sg : sugov_policy) (p : cpufreq_policy) (env : sched_env) (time : Z) :
  let js := for_each_cpu nr_cpu_ids
              (cpumask_and (related_cpus p) (cpu_online_mask env)) in
  let fresh := fresh_cpus cpus time js in
  let '(cpus', sg', f) := sugov_next_freq_shared cpus sg p env time in
  (forall j, In j js <->
     (j < nr_cpu_ids)%nat
     /\ cpumask_test_cpu j (related_cpus p) = true
     /\ cpumask_test_cpu j (cpu_online_mask env) = true)
  /\ (forall c, In c fresh <->
        exists j, In j js /\ c = cpus !!! j
                  /\ ~ TICK_NSEC < delta_ns time (last_update c))
  /\ (existsb deadline fresh = true -> f = cpuinfo_max_freq p /\ sg' = sg)
  /\ (existsb deadline fresh = false ->
      length cpus = nr_cpu_ids ->
      (forall j, In j js ->
         cpus' !!! j = if stale time (cpus !!! j)
                       then set_iowait_boost 0 (cpus !!! j)
                       else decayed (cpus !!! j))
      /\ (forall j, ~ In j js -> cpus' !!! j = cpus !!! j))
  /\ (existsb deadline fresh = false ->
      Forall cpu_in_range fresh ->
      let w := best_pair (List.map boosted_pair fresh) (0, 1) in
      (sg', f) = get_next_freq sg p w.1 w.2
      /\ (w = (0, 1) \/ In w (List.map boosted_pair fresh))
      /\ (forall c, In c fresh ->
            (boosted_pair c).1 * w.2 <= w.1 * (boosted_pair c).2)).
Proof.
  intros js fresh. unfold sugov_next_freq_shared. fold js.
  pose proof (for_each_cpu_NoDup nr_cpu_ids
                (cpumask_and (related_cpus p) (cpu_online_mask env))) as Hnd.
  fold js in Hnd.
  destruct (sugov_next_freq_shared_loop cpus time js 0 1) as [cpus' r] eqn:Hloop.
  assert (forall j, In j js <->
            (j < nr_cpu_ids)%nat
            /\ cpumask_test_cpu j (related_cpus p) = true
            /\ cpumask_test_cpu j (cpu_online_mask env) = true) as Hjs.
  { intros j. subst js. rewrite for_each_cpu_spec.
    unfold cpumask_test_cpu, cpumask_and. rewrite Z.land_spec, andb_true_iff.
    tauto. }
  assert (forall c, In c fresh <->
            exists j, In j js /\ c = cpus !!! j
                      /\ ~ TICK_NSEC < delta_ns time (last_update c)) as Hfresh.
  { intros c. subst fresh. unfold fresh_cpus.
    rewrite List.filter_In, List.in_map_iff. unfold stale.
    rewrite negb_true_iff, Z.ltb_ge. split.
    - intros [(j & <- & Hj) Hc]. exists j. repeat split; try done. lia.
    - intros (j & Hj & -> & Hc). split; [exists j; done|lia]. }
  destruct (existsb deadline fresh) eqn:Hdl.
  - pose proof (shared_loop_deadline time js cpus 0 1 Hnd Hdl) as Hnone.
    rewrite Hloop in Hnone. simpl in Hnone. subst r.
    split; [done|]. split; [done|]. split; [done|]. split; done.
  - assert (length cpus = nr_cpu_ids ->
            (forall j, In j js ->
               cpus' !!! j = if stale time (cpus !!! j)
                             then set_iowait_boost 0 (cpus !!! j)
                             else decayed (cpus !!! j))
            /\ (forall j, ~ In j js -> cpus' !!! j = cpus !!! j)) as Hstate.
    { intros Hlen.
      assert (forall j, In j js -> (j < length cpus)%nat) as Hbound.
      { intros j Hj. apply Hjs in Hj as [Hj _]. now rewrite Hlen. }
      pose proof (shared_loop_state time js cpus 0 1 Hnd Hbound Hdl) as Hst.
      cbv zeta in Hst. now rewrite Hloop in Hst. }
    assert (Forall cpu_in_range fresh ->
            r = Some (best_pair (List.map boosted_pair fresh) (0, 1))) as Hres.
    { intros Hwf.
      pose proof (shared_loop_best time js cpus 0 1 Hnd Hdl Hwf
                    pair_in_range_start) as Hbest.
      now rewrite Hloop in Hbest. }
    assert (Forall cpu_in_range fresh ->
            let w := best_pair (List.map boosted_pair fresh) (0, 1) in
            (w = (0, 1) \/ In w (List.map boosted_pair fresh))
            /\ (forall c, In c fresh ->
                  (boosted_pair c).1 * w.2 <= w.1 * (boosted_pair c).2)) as Hmax.
    { intros Hwf w.
      destruct (best_pair_max (List.map boosted_pair fresh) (0, 1))
        as (_ & Hmem & _ & Hmax).
      { apply pair_in_range_start. }
      { apply Forall_forall. intros x Hx.
        apply list_elem_of_In, List.in_map_iff in Hx as (c & <- & Hc).
        apply boosted_pair_in_range.
        rewrite Forall_forall in Hwf. apply Hwf. now apply list_elem_of_In. }
      split; [exact Hmem|].
      intros c Hc. apply (Hmax (boosted_pair c)). now apply List.in_map. }
    destruct r as [[u m]|].
    + destruct (get_next_freq sg p u m) as [sg' f] eqn:Hsel.
      split; [done|]. split; [done|]. split; [done|].
      split; [intros _; exact Hstate|].
      intros _ Hwf. specialize (Hres Hwf). specialize (Hmax Hwf).
      injection Hres as Hw. cbv zeta in Hmax |- *. rewrite <- Hw in Hmax |- *.
      cbn [fst snd] in Hmax |- *. rewrite Hsel. split; [done|exact Hmax].
    + split; [done|]. split; [done|]. split; [done|].
      split; [intros _; exact Hstate|].
      intros _ Hwf. specialize (Hres Hwf). done.
Qed.

End Properties.

(** ** The driver of this tree *)

Section TreeDriver.
Context {PF : Platform}.



End TreeDriver.

(** ** The properties on concrete objects *)

Lemma example_table_sorted : StronglySorted Z.le example_table.
Proof. unfold example_table. repeat constructor; lia. Qed.

(** C1, the claim as stated fails: a sample with the I/O-wait flag leaves
    the boost at 0, not at the configured maximum 1794000; and a sample
    without the flag clears a pending boost although only 1000ns, less than
    a tick, passed since the previous update. *)
Lemma sugov_set_iowait_boost_counterexample :
  iowait_boost
    (@sugov_set_iowait_boost example_platform example_cpu 100001000 4) = 0
  /\ iowait_boost
       (@sugov_set_iowait_boost example_platform example_cpu 100001000 4)
     <> iowait_boost_max example_cpu
  /\ delta_ns 100001000 (last_update (example_sample 300 400000 100000000))
     <= @TICK_NSEC example_platform
  /\ iowait_boost
       (@sugov_set_iowait_boost example_platform
          (example_sample 300 400000 100000000) 100001000 0) = 0.
Proof. vm_compute. repeat split; congruence. Qed.

(** C2, the claim as stated fails: with the policy at 949000 and 715000
    committed, a floor raised to 1248000 makes no hardware call, and a floor
    lowered to 455000 makes one, for 715000. *)
Lemma sugov_pm_qos_callback_counterexample :
  (@sugov_pm_qos_callback example_platform example_governor 1248000 3).2 = []
  /\ (@sugov_pm_qos_callback example_platform example_governor 455000 3).2
     = [cpufreq_driver_target example_policy 715000].
Proof. split; reflexivity. Qed.

Lemma sugov_pm_qos_callback_calls_witness :
  let calls :=
    (@sugov_pm_qos_callback example_platform example_governor 455000 3).2 in
  length calls = 1%nat
  /\ calls = [cpufreq_driver_target example_policy 715000].
Proof.
  apply (@sugov_pm_qos_callback_calls example_platform example_governor
           455000 3 1%nat 0%nat 0%nat (set_next_freq 715000 example_sg_policy)
           example_policy); reflexivity.
Defined.



Lemma sugov_update_commit_rate_limit_witness :
  @sugov_update_commit example_platform (table_driver example_table)
    example_sg_policy example_policy example_env
    (u64 (100000000 + 1000 * 1000)) 1248000
  = (set_cached_raw_freq 0 example_sg_policy, example_policy, [])
  /\ next_freq
       (@sugov_update_commit example_platform (table_driver example_table)
          example_sg_policy example_policy example_env
          (u64 (100000000 + 2001 * 1000)) 1248000).1.1 = 1248000.
Proof.
  destruct (proj2 (@sugov_update_commit_rate_limit example_platform
                     (table_driver example_table))
              example_sg_policy example_policy example_env 1248000)
    as (Hblocked & Hallowed & _); try reflexivity.
  split; [exact Hblocked|exact Hallowed].
Defined.

(** C6, the claim as stated fails: with a deferred apply in flight and the
    forced-recompute flag set, the gate does not pass, the flag stays set
    and the committed target is not invalidated. *)
Lemma sugov_should_update_freq_counterexample :
  let sg := set_work_in_progress true
              (set_need_freq_update true example_sg_policy) in
  need_freq_update sg = true
  /\ sugov_should_update_freq sg 100001000 = (sg, false)
  /\ need_freq_update (sugov_should_update_freq sg 100001000).1 = true
  /\ next_freq (sugov_should_update_freq sg 100001000).1 <> UINT_MAX.
Proof. vm_compute. repeat split; congruence. Qed.

Lemma sugov_should_update_freq_gate_witness :
  let sg := set_need_freq_update true example_sg_policy in
  delta_ns 100001000 (last_freq_update_time sg) < min_rate_limit_ns sg
  /\ (sugov_should_update_freq sg 100001000).2 = true
  /\ next_freq (sugov_should_update_freq sg 100001000).1 = UINT_MAX.
Proof.
  intros sg. split; [vm_compute; reflexivity|].
  pose proof (proj1 (proj2 (sugov_should_update_freq_gate sg 100001000))
                eq_refl eq_refl) as H.
  destruct (sugov_should_update_freq sg 100001000) as [sg' go].
  destruct H as (Hgo & Hnext & _). split; [exact Hgo|exact Hnext].
Defined.

Lemma sugov_pm_qos_callback_enforces_witness :
  @sugov_pm_qos_callback example_platform example_governor 455000 3
  = (NOTIFY_OK, [cpufreq_driver_target example_policy 715000])
  /\ @sugov_pm_qos_callback example_platform example_governor 949000 3
     = (NOTIFY_BAD, []).
Proof.
  split.
  - pose proof (@sugov_pm_qos_callback_enforces example_platform
                  example_governor 455000 3) as H.
    destruct (@sugov_pm_qos_callback example_platform example_governor
                455000 3) as [ret evs].
    destruct H as [_ H].
    destruct (H 1%nat 0%nat 0%nat (set_next_freq 715000 example_sg_policy)
                example_policy eq_refl eq_refl eq_refl eq_refl eq_refl)
      as [Hlow _].
    destruct Hlow as [-> ->]; [simpl; lia|reflexivity].
  - pose proof (@sugov_pm_qos_callback_enforces example_platform
                  example_governor 949000 3) as H.
    destruct (@sugov_pm_qos_callback example_platform example_governor
                949000 3) as [ret evs].
    destruct H as [_ H].
    destruct (H 1%nat 0%nat 0%nat (set_next_freq 715000 example_sg_policy)
                example_policy eq_refl eq_refl eq_refl eq_refl eq_refl)
      as [_ Hhigh].
    destruct Hhigh as [-> ->]; [simpl; lia|reflexivity].
Defined.



(** C9, the claim as stated fails: after a blocked commit the cache holds
    0 while 949000 is committed; utilisation 0 is then answered from the
    cache with 949000, and the larger utilisation 100 (of 1024) is resolved
    to 455000. *)
Lemma get_next_freq_counterexample :
  let sel := fun u =>
    (@get_next_freq example_platform (table_driver example_table)
       example_sg_policy example_policy u 1024).2 in
  0 <= 100 /\ sel 0 = 949000 /\ sel 100 = 455000 /\ ~ sel 0 <= sel 100.
Proof. vm_compute. repeat split; congruence. Qed.

(** A candidate that no longer fits [unsigned int] breaks the order as
    well, with both utilisations resolved by the driver. *)
Lemma get_next_freq_wrap_example :
  let sel := fun u =>
    (@get_next_freq example_platform (table_driver example_table)
       (set_cached_raw_freq 7 example_sg_policy) example_policy u 1024).2 in
  sel (1915 * 1024) = 1794000 /\ sel (1916 * 1024) = 1690000.
Proof. vm_compute. split; reflexivity. Qed.

Lemma get_next_freq_monotone_witness :
  (@get_next_freq example_platform (table_driver example_table)
     example_sg_policy example_policy 200 1024).2
  <= (@get_next_freq example_platform (table_driver example_table)
        example_sg_policy example_policy 800 1024).2.
Proof.
  apply (@get_next_freq_monotone example_platform (table_driver example_table)
           example_sg_policy example_policy 200 800 1024).
  - intros f1 f2 Hf. apply table_resolve_freq_mono; [|exact Hf].
    apply example_table_sorted.
  - lia.
  - lia.
  - vm_compute. congruence.
  - vm_compute. congruence.
  - vm_compute. congruence.
  - vm_compute. congruence.
  - reflexivity.
Defined.

Lemma sugov_update_single_busy_holds_witness :
  let '(c', sg', p', evs) :=
    @sugov_update_single example_platform (table_driver example_table)
      example_cpu example_sg_policy example_policy example_env 103000000 0 in
  next_freq sg' = 949000 /\ cached_raw_freq sg' = 0 /\ evs = [].
Proof.
  assert ((@get_next_freq example_platform (table_driver example_table)
             example_sg_policy example_policy
             (sugov_get_util example_env).1 (sugov_get_util example_env).2).2
          < next_freq example_sg_policy) as Hlower by (vm_compute; reflexivity).
  pose proof (@sugov_update_single_busy_holds example_platform
                (table_driver example_table) example_cpu example_sg_policy
                example_sg_policy example_policy example_env 103000000 0
                eq_refl eq_refl eq_refl Hlower) as H.
  destruct (@sugov_update_single example_platform (table_driver example_table)
              example_cpu example_sg_policy example_policy example_env
              103000000 0) as [[[c' sg'] p'] evs].
  destruct H as (Hnext & _ & Hcache & _ & _ & _ & Hevs).
  split; [exact Hnext|]. split; [exact Hcache|exact Hevs].
Defined.

Lemma example_cpus_in_range :
  Forall cpu_in_range
    (@fresh_cpus example_platform example_cpus 100020000 [0; 1; 2; 3]%nat).
Proof.
  assert (@fresh_cpus example_platform example_cpus 100020000 [0; 1; 2; 3]%nat
          = [example_sample 800 0 100000000; example_sample 200 0 100020000;
             example_sample 300 400000 100010000]) as -> by reflexivity.
  repeat apply Forall_cons_2; try apply Forall_nil_2;
    unfold cpu_in_range, pair_in_range; cbn; lia.
Qed.

Lemma sugov_next_freq_shared_aggregates_witness :
  let '(cpus', sg', f) :=
    @sugov_next_freq_shared example_platform (table_driver example_table)
      example_cpus example_sg_policy example_policy example_env 100020000 in
  (sg', f) = @get_next_freq example_platform (table_driver example_table)
               example_sg_policy example_policy 800 1024
  /\ iowait_boost (cpus' !!! 3%nat) = 200000.
Proof.
  pose proof (@sugov_next_freq_shared_aggregates example_platform
                (table_driver example_table) example_cpus example_sg_policy
                example_policy example_env 100020000) as H.
  cbv zeta in H.
  destruct (@sugov_next_freq_shared example_platform
              (table_driver example_table) example_cpus example_sg_policy
              example_policy example_env 100020000) as [[cpus' sg'] f].
  destruct H as (_ & _ & _ & Hstate & H).
  destruct (H eq_refl example_cpus_in_range) as (Hsel & _).
  destruct (Hstate eq_refl eq_refl) as (Hin & _).
  split; [exact Hsel|].
  rewrite (Hin 3%nat); [reflexivity|].
  vm_compute. tauto.
Defined.

(** The state of the C9 example is the one a blocked commit leaves: a
    rising target 1000us after the last commit zeroes the cache and keeps
    the committed 949000. *)
Lemma example_sg_policy_after_blocked_commit :
  @sugov_update_commit example_platform (table_driver example_table)
    (set_cached_raw_freq 1167969 example_sg_policy) example_policy
    example_env 101000000 1248000
  = (example_sg_policy, example_policy, []).
Proof. reflexivity. Qed.

(** The range condition of the aggregation is not idle: with a core of
    capacity 0 that carries a boost, substituting on the running winner
    (the loop) and substituting on the core's own pair differ. *)
Lemma shared_round_zero_capacity_example :
  let cpus :=
    [ {| sg_policy := Some 0%nat; iowait_boost := 0; iowait_boost_max := 1;
         last_update := 100; util := 1; max := 1; flags := 0;
         saved_idle_calls := 0 |};
      {| sg_policy := Some 0%nat; iowait_boost := 2; iowait_boost_max := 1;
         last_update := 100; util := 0; max := 0; flags := 0;
         saved_idle_calls := 0 |} ] in
  (@sugov_next_freq_shared_loop example_platform cpus 100 [0; 1]%nat 0 1).2
  = Some (2, 1)
  /\ best_pair
       (List.map boosted_pair
          (@fresh_cpus example_platform cpus 100 [0; 1]%nat)) (0, 1)
     = (1, 1).
Proof. split; reflexivity. Qed.

(** ** Further properties of the governor *)

Section MoreProperties.
Context {PF : Platform} {DRV : CpufreqDriver}.

(** *** Walking a cpumask *)

Lemma find_filter_seq_first (f g : nat -> bool) (n : nat) :
  forall a x : nat,
    List.find f (List.filter g (seq a n)) = Some x ->
    (a <= x < a + n)%nat /\ g x = true /\ f x = true
    /\ forall y : nat, (a <= y < x)%nat -> g y = true -> f y = false.
Proof.
  induction n as [|n IH]; intros a x Hfind; [discriminate|].
  simpl in Hfind. destruct (g a) eqn:Hg.
  - simpl in Hfind. destruct (f a) eqn:Hf.
    + injection Hfind as <-.
      split; [lia|]. split; [done|]. split; [done|]. intros y Hy. lia.
    + destruct (IH (S a) x Hfind) as (Hx & Hgx & Hfx & Hmin).
      split; [lia|]. split; [done|]. split; [done|].
      intros y Hy Hgy. destruct (Nat.eq_dec y a) as [->|Hne]; [done|].
      apply Hmin; [lia|done].
  - destruct (IH (S a) x Hfind) as (Hx & Hgx & Hfx & Hmin).
    split; [lia|]. split; [done|]. split; [done|].
    intros y Hy Hgy. destruct (Nat.eq_dec y a) as [->|Hne]; [congruence|].
    apply Hmin; [lia|done].
Qed.

Lemma for_each_cpu_find_first (n : nat) (m : cpumask) (f : nat -> bool)
  (x : nat) :
  List.find f (for_each_cpu n m) = Some x ->
  (x < n)%nat /\ cpumask_test_cpu x m = true /\ f x = true
  /\ forall y : nat, (y < x)%nat -> cpumask_test_cpu y m = true -> f y = false.
Proof.
  intros Hfind. apply find_filter_seq_first in Hfind as (Hx & Hg & Hf & Hmin).
  split; [lia|]. split; [done|]. split; [done|].
  intros y Hy. apply Hmin. lia.
Qed.

Lemma for_each_cpu_find_none (n : nat) (m : cpumask) (f : nat -> bool) :
  List.find f (for_each_cpu n m) = None ->
  forall y : nat, (y < n)%nat -> cpumask_test_cpu y m = true -> f y = false.
Proof.
  intros Hnone y Hy Hm.
  apply (List.find_none _ _ Hnone). now apply for_each_cpu_spec.
Qed.

Lemma cpumask_weight_bounds (n : nat) (m : cpumask) :
  0 <= cpumask_weight n m <= Z.of_nat n.
Proof.
  unfold cpumask_weight, for_each_cpu.
  pose proof (List.filter_length_le (fun cpu => cpumask_test_cpu cpu m) (seq 0 n)) as H.
  rewrite List.length_seq in H. lia.
Qed.

Lemma cpumask_weight_zero (n : nat) (m : cpumask) :
  cpumask_weight n m = 0 <->
  forall cpu : nat, (cpu < n)%nat -> cpumask_test_cpu cpu m = false.
Proof.
  unfold cpumask_weight. split.
  - intros Hw cpu Hcpu. destruct (cpumask_test_cpu cpu m) eqn:Ht; [|done].
    assert (In cpu (for_each_cpu n m)) as Hin by now apply for_each_cpu_spec.
    destruct (for_each_cpu n m); [done|]. simpl in Hw. lia.
  - intros Hnone. destruct (for_each_cpu n m) as [|cpu rest] eqn:E; [done|].
    assert (In cpu (for_each_cpu n m)) as Hin by (rewrite E; now left).
    apply for_each_cpu_spec in Hin as [Hlt Ht].
    rewrite Hnone in Ht by done. done.
Qed.

(** *** Choosing the cpu that applies a deferred change *)

(** X1.  [sugov_select_scaling_cpu] answers with the lowest-numbered idle
    cpu among the online cpus of the boot cluster when there is one.  When
    none of them is idle it answers with their number minus one, which is a
    cpu number below [nr_cpu_ids].  When the boot cluster has no online cpu
    it answers with the panic cpu, or with -1 when there is none; so a
    negative answer means that the boot cluster is empty and no cpu
    panicked. *)
Theorem sugov_select_scaling_cpu_choice (env : sched_env) :
  let mask := cpumask_and (cpu_coregroup_mask0 env) (cpu_online_mask env) in
  let member := fun cpu : nat =>
    (cpu < nr_cpu_ids)%nat /\ cpumask_test_cpu cpu mask = true in
  let weight := cpumask_weight nr_cpu_ids mask in
  let r := sugov_select_scaling_cpu env in
  (forall cpu : nat, member cpu -> idle_cpu env cpu = true ->
     exists c : nat,
       r = Z.of_nat c /\ member c /\ idle_cpu env c = true /\ (c <= cpu)%nat)
  /\ ((forall cpu : nat, member cpu -> idle_cpu env cpu = false) ->
      (0 < weight -> r = weight - 1 /\ 0 <= r < Z.of_nat nr_cpu_ids)
      /\ (weight = 0 ->
          r = if panic_cpu env =? PANIC_CPU_INVALID then -1 else panic_cpu env))
  /\ (-1 <= panic_cpu env -> r < 0 ->
      r = -1 /\ panic_cpu env = PANIC_CPU_INVALID
      /\ forall cpu : nat, ~ member cpu).
Proof.
  intros mask member weight r. subst r. unfold sugov_select_scaling_cpu.
  fold mask. fold weight.
  pose proof (cpumask_weight_bounds nr_cpu_ids mask) as Hw. fold weight in Hw.
  destruct (List.find (idle_cpu env) (for_each_cpu nr_cpu_ids mask))
    as [c|] eqn:Hfind.
  - apply for_each_cpu_find_first in Hfind as (Hc & Hm & Hidle & Hmin).
    split; [|split].
    + intros cpu [Hcpu Hcm] Hcidle. exists c. repeat split; try done.
      destruct (Nat.le_gt_cases c cpu) as [Hle|Hgt]; [done|].
      rewrite Hmin in Hcidle by done. done.
    + intros Hnoidle. rewrite Hnoidle in Hidle by done. done.
    + intros _ Hneg. lia.
  - pose proof (for_each_cpu_find_none _ _ _ Hfind) as Hnone.
    split; [|split].
    + intros cpu [Hcpu Hcm] Hcidle. rewrite Hnone in Hcidle by done. done.
    + intros _. split.
      * intros Hpos. destruct (Z.eqb_spec weight 0); [lia|]. simpl. lia.
      * intros ->. simpl.
        destruct (panic_cpu env =? PANIC_CPU_INVALID); simpl; lia.
    + intros Hpanic Hneg. unfold PANIC_CPU_INVALID in *.
      destruct (Z.eqb_spec weight 0) as [Hz|Hnz]; simpl in Hneg.
      * destruct (Z.eqb_spec (panic_cpu env) (-1)) as [Hp|Hp];
          simpl in Hneg; [|lia].
        rewrite Hz. simpl. repeat split; try done.
        intros cpu [Hcpu Hcm].
        pose proof (proj1 (cpumask_weight_zero nr_cpu_ids mask) Hz cpu Hcpu).
        congruence.
      * lia.
Qed.

(** X2.  A changed target that passes the rate limit on a policy without
    fast switching is recorded as the committed target with its time, and
    the policy is not touched.  When a scaling cpu is found the group is
    marked in flight and exactly one irq work is queued, on that cpu; when
    none is found (a negative answer) nothing is queued and the in-flight
    flag stays as it was, although the target counts as committed. *)
Theorem sugov_update_commit_deferred (sg : sugov_policy) (p : cpufreq_policy)
  (env : sched_env) (time next_f : Z) :
  sugov_up_down_rate_limit sg time next_f = false ->
  next_freq sg <> next_f ->
  fast_switch_enabled p = false ->
  let cpu := sugov_select_scaling_cpu env in
  let '(sg', p', evs) := sugov_update_commit sg p env time next_f in
  p' = p /\ next_freq sg' = next_f /\ last_freq_update_time sg' = time
  /\ cached_raw_freq sg' = cached_raw_freq sg
  /\ need_freq_update sg' = need_freq_update sg
  /\ (0 <= cpu ->
      work_in_progress sg' = true /\ evs = [irq_work_queue_on cpu])
  /\ (cpu < 0 ->
      work_in_progress sg' = work_in_progress sg /\ evs = []).
Proof.
  intros Hgate Hne Hslow cpu. unfold sugov_update_commit.
  rewrite Hgate, Hslow. fold cpu.
  destruct (Z.eqb_spec (next_freq sg) next_f); [done|].
  destruct (Z.ltb_spec cpu 0); repeat split; try done; lia.
Qed.

(** *** Samples that do not reach the selector *)

Lemma sugov_update_single_gate_closed (c : sugov_cpu) (sg : sugov_policy)
  (p : cpufreq_policy) (env : sched_env) (time fl : Z) :
  sugov_should_update_freq sg time = (sg, false) ->
  sugov_update_single c sg p env time fl
  = (set_last_update time (set_iowait_boost 0 c), sg, p, []).
Proof.
  intros Hgate. unfold sugov_update_single.
  rewrite Hgate, sugov_set_iowait_boost_eq. reflexivity.
Qed.

Lemma sugov_update_shared_gate_closed (this_cpu : nat) (cpus : list sugov_cpu)
  (sg : sugov_policy) (p : cpufreq_policy) (env : sched_env) (time fl : Z) :
  sugov_should_update_freq sg time = (sg, false) ->
  sugov_update_shared this_cpu cpus sg p env time fl
  = (<[this_cpu :=
        set_last_update time
          (set_iowait_boost 0
             (set_sample (sugov_get_util env).1 (sugov_get_util env).2 fl
                (cpus !!! this_cpu)))]> cpus,
     sg, p, []).
Proof.
  intros Hgate. unfold sugov_update_shared.
  destruct (sugov_get_util env) as [u m].
  rewrite Hgate, sugov_set_iowait_boost_eq. reflexivity.
Qed.

(** X3.  While a deferred change is in flight no sample changes the group
    or the policy or dispatches anything, at whatever time it comes, with
    whatever flags, and whether or not a limits change is pending: the
    single-cpu update only stamps the cpu, the shared update only records
    the cpu's sample.  The worker then makes one blocking driver call for
    the committed target and clears the in-flight flag, leaving the rest of
    the group as it is. *)
Theorem work_in_progress_blocks_updates (sg : sugov_policy)
  (p : cpufreq_policy) :
  work_in_progress sg = true ->
  (forall (c : sugov_cpu) (env : sched_env) (time fl : Z),
     sugov_update_single c sg p env time fl
     = (set_last_update time (set_iowait_boost 0 c), sg, p, []))
  /\ (forall (this_cpu : nat) (cpus : list sugov_cpu) (env : sched_env)
             (time fl : Z),
        sugov_update_shared this_cpu cpus sg p env time fl
        = (<[this_cpu :=
              set_last_update time
                (set_iowait_boost 0
                   (set_sample (sugov_get_util env).1 (sugov_get_util env).2 fl
                      (cpus !!! this_cpu)))]> cpus,
           sg, p, []))
  /\ (let '(sg', calls) := sugov_work sg p in
      calls = [cpufreq_driver_target p (next_freq sg)]
      /\ sg' = set_work_in_progress false sg
      /\ forall time : Z,
           (sugov_should_update_freq sg' time).2
           = need_freq_update sg
             || (min_rate_limit_ns sg
                 <=? delta_ns time (last_freq_update_time sg))).
Proof.
  intros Hwip.
  assert (forall time, sugov_should_update_freq sg time = (sg, false)) as Hgate.
  { intros time. unfold sugov_should_update_freq. now rewrite Hwip. }
  split; [|split].
  - intros. now apply sugov_update_single_gate_closed.
  - intros. now apply sugov_update_shared_gate_closed.
  - simpl. split; [done|]. split; [done|]. intros time.
    unfold sugov_should_update_freq. simpl.
    now destruct (need_freq_update sg).
Qed.

(** X4.  With no limits change pending, a sample that arrives less than the
    minimum delay after the last committed change is not acted on: the
    single-cpu and the shared update leave the group and the policy as they
    are and dispatch nothing, whatever the utilisation and the flags. *)
Theorem update_within_min_rate_limit_ignored (sg : sugov_policy)
  (p : cpufreq_policy) (k : Z) :
  need_freq_update sg = false ->
  0 <= k < min_rate_limit_ns sg ->
  k < 2 ^ 63 ->
  let time := u64 (last_freq_update_time sg + k) in
  (forall (c : sugov_cpu) (env : sched_env) (fl : Z),
     let '(c', sg', p', evs) := sugov_update_single c sg p env time fl in
     sg' = sg /\ p' = p /\ evs = [] /\ last_update c' = time)
  /\ (forall (this_cpu : nat) (cpus : list sugov_cpu) (env : sched_env)
             (fl : Z),
        let '(cpus', sg', p', evs) :=
          sugov_update_shared this_cpu cpus sg p env time fl in
        sg' = sg /\ p' = p /\ evs = []
        /\ forall j : nat, j <> this_cpu -> cpus' !!! j = cpus !!! j).
Proof.
  intros Hneed Hk Hk63 time.
  assert (sugov_should_update_freq sg time = (sg, false)) as Hgate.
  { unfold sugov_should_update_freq. rewrite Hneed.
    destruct (work_in_progress sg); [done|].
    subst time. rewrite delta_ns_after by lia.
    destruct (Z.leb_spec (min_rate_limit_ns sg) k); [lia|done]. }
  split.
  - intros c env fl. rewrite sugov_update_single_gate_closed by done. done.
  - intros this_cpu cpus env fl.
    rewrite sugov_update_shared_gate_closed by done.
    repeat split. intros j Hj.
    apply list_lookup_total_insert_ne. congruence.
Qed.

(** *** A recomputation that starts from the unknown target *)

(** X5.  When the gate lets a non-deadline sample of a single-cpu policy
    through with the committed target unknown ([UINT_MAX], as after a
    limits change or a start) and the driver resolves the candidate below
    [UINT_MAX]: if the cpu has seen no idle call since the previous
    evaluation, or the down delay has not elapsed since the last committed
    change, nothing is committed or dispatched, the target stays unknown
    and the cache is zeroed; only an update of a cpu that has been idle,
    with the down delay elapsed, commits the resolved frequency. *)
Theorem sugov_update_single_from_unknown (c : sugov_cpu) (sg sg1 : sugov_policy)
  (p : cpufreq_policy) (env : sched_env) (time fl : Z) :
  sugov_should_update_freq sg time = (sg1, true) ->
  next_freq sg1 = UINT_MAX ->
  flag_set fl SCHED_CPUFREQ_DL = false ->
  let candidate := raw_freq p (sugov_get_util env).1 (sugov_get_util env).2 in
  let f := cpufreq_driver_resolve_freq p candidate in
  let busy := tick_nohz_get_idle_calls env =? saved_idle_calls c in
  let d := delta_ns time (last_freq_update_time sg) in
  f < UINT_MAX ->
  let '(c', sg', p', evs) := sugov_update_single c sg p env time fl in
  (busy = true \/ d < down_rate_delay_ns sg1 ->
   next_freq sg' = UINT_MAX /\ cached_raw_freq sg' = 0
   /\ last_freq_update_time sg' = last_freq_update_time sg
   /\ work_in_progress sg' = work_in_progress sg
   /\ p' = p /\ evs = [])
  /\ (busy = false -> down_rate_delay_ns sg1 <= d ->
      next_freq sg' = f /\ last_freq_update_time sg' = time
      /\ cached_raw_freq sg' = candidate).
Proof.
  intros Hgate Hunknown Hdl candidate f busy d Hf.
  destruct (sugov_should_update_freq_frame _ _ _ _ Hgate) as (Ht & Hw & _ & _).
  unfold sugov_update_single. rewrite Hgate. simpl negb. cbv iota.
  unfold sugov_cpu_is_busy. rewrite Hdl.
  destruct (sugov_get_util env) as [u m] eqn:Hutil.
  rewrite sugov_iowait_boost_inert by reflexivity.
  rewrite sugov_set_iowait_boost_eq. simpl saved_idle_calls. fold busy.
  simpl in candidate. fold candidate in f.
  assert (get_next_freq sg1 p u m = (set_cached_raw_freq candidate sg1, f))
    as ->.
  { unfold get_next_freq. fold candidate. rewrite Hunknown, Z.eqb_refl.
    now rewrite andb_false_r. }
  simpl next_freq. rewrite Hunknown.
  assert ((f <? UINT_MAX) = true) as -> by (apply Z.ltb_lt; lia).
  rewrite andb_true_r.
  destruct busy eqn:Hbusy.
  - pose proof (sugov_update_commit_same
                  (set_cached_raw_freq 0 (set_cached_raw_freq candidate sg1))
                  p env time) as Hsame.
    simpl next_freq in Hsame. rewrite Hunknown in Hsame. rewrite Hsame. simpl.
    split; [|intros; done]. intros _. repeat split; congruence.
  - destruct (Z.lt_ge_cases d (down_rate_delay_ns sg1)) as [Hlt|Hge].
    + rewrite sugov_update_commit_blocked.
      * simpl. split; [|intros; lia]. intros _. repeat split; congruence.
      * apply sugov_up_down_rate_limit_true. right. simpl.
        rewrite Hunknown, Ht. fold d. lia.
    + assert (sugov_up_down_rate_limit (set_cached_raw_freq candidate sg1)
                time f = false) as Hpass.
      { destruct (sugov_up_down_rate_limit _ _ _) eqn:E; [|done].
        apply sugov_up_down_rate_limit_true in E. simpl in E.
        rewrite Hunknown, Ht in E. fold d in E. lia. }
      pose proof (sugov_update_commit_passed
                    (set_cached_raw_freq candidate sg1) p env time f Hpass)
        as Hcommit.
      destruct (sugov_update_commit (set_cached_raw_freq candidate sg1)
                  p env time f) as [[sg' p'] evs].
      simpl in Hcommit. split; [intros [|]; [done|lia]|].
      intros _ _. apply Hcommit. rewrite Hunknown. lia.
Qed.

(** *** The iowait boost *)

Lemma shared_loop_boost_zero (time : Z) (js : list nat) :
  forall (cpus : list sugov_cpu) (u m : Z),
    Forall (fun c => iowait_boost c = 0) cpus ->
    Forall (fun c => iowait_boost c = 0)
      (sugov_next_freq_shared_loop cpus time js u m).1.
Proof.
  induction js as [|j js IH]; intros cpus u m Hzero; [done|]. simpl.
  destruct (TICK_NSEC <? _).
  - apply IH. now apply Forall_insert.
  - destruct (flag_set _ _); [done|].
    destruct (if u64 _ <? u64 _ then _ else _) as [u1 m1].
    pose proof (sugov_iowait_boost_state (cpus !!! j) u1 m1) as Hc.
    destruct (sugov_iowait_boost (cpus !!! j) u1 m1) as [[c' u2] m2].
    simpl in Hc. apply IH. apply Forall_insert; [done|]. subst c'.
    unfold decayed. destruct (Z.eqb_spec (iowait_boost (cpus !!! j)) 0); [done|].
    simpl. destruct (decide (j < length cpus)%nat) as [Hlt|Hge].
    + exfalso. rewrite Forall_lookup in Hzero.
      destruct (lookup_lt_is_Some_2 cpus j Hlt) as [x Hx].
      rewrite (list_lookup_total_correct _ _ _ Hx) in n.
      apply n. now apply (Hzero j x).
    + exfalso. apply n.
      rewrite list_lookup_total_alt, lookup_ge_None_2 by lia. done.
Qed.

(** X6.  The single-cpu update always leaves its cpu's boost at zero, and
    the shared update keeps a per-cpu array in which every boost is zero in
    that state; so on the update paths no boost is ever pending. *)
Theorem iowait_boost_stays_zero :
  (forall (c : sugov_cpu) (sg : sugov_policy) (p : cpufreq_policy)
          (env : sched_env) (time fl : Z),
     iowait_boost (sugov_update_single c sg p env time fl).1.1.1 = 0)
  /\ (forall (this_cpu : nat) (cpus : list sugov_cpu) (sg : sugov_policy)
             (p : cpufreq_policy) (env : sched_env) (time fl : Z),
        Forall (fun c => iowait_boost c = 0) cpus ->
        Forall (fun c => iowait_boost c = 0)
          (sugov_update_shared this_cpu cpus sg p env time fl).1.1.1).
Proof.
  split.
  - intros c sg p env time fl. unfold sugov_update_single.
    rewrite sugov_set_iowait_boost_eq.
    destruct (sugov_should_update_freq sg time) as [sg1 go].
    destruct go; [|reflexivity]. simpl negb. cbv iota.
    unfold sugov_cpu_is_busy.
    destruct (flag_set fl SCHED_CPUFREQ_DL).
    + now destruct (sugov_update_commit _ _ _ _ _) as [[sg2 p2] evs].
    + destruct (sugov_get_util env) as [u m].
      rewrite sugov_iowait_boost_inert by reflexivity.
      destruct (get_next_freq sg1 p u m) as [sg2 next_f].
      destruct (if _ && _ then _ else _) as [sg3 next_f'].
      now destruct (sugov_update_commit _ _ _ _ _) as [[sg4 p4] evs].
  - intros this_cpu cpus sg p env time fl Hzero. unfold sugov_update_shared.
    destruct (sugov_get_util env) as [u m].
    rewrite sugov_set_iowait_boost_eq.
    set (cpus1 := <[this_cpu := _]> cpus).
    assert (Forall (fun c => iowait_boost c = 0) cpus1) as Hzero1
      by (subst cpus1; now apply Forall_insert).
    destruct (sugov_should_update_freq sg time) as [sg1 go].
    destruct go; [|done].
    destruct (flag_set fl SCHED_CPUFREQ_DL).
    + now destruct (sugov_update_commit _ _ _ _ _) as [[sg3 p3] evs].
    + unfold sugov_next_freq_shared.
      pose proof (shared_loop_boost_zero time
                    (for_each_cpu nr_cpu_ids
                       (cpumask_and (related_cpus p) (cpu_online_mask env)))
                    cpus1 0 1 Hzero1) as Hloop.
      destruct (sugov_next_freq_shared_loop _ _ _ _ _) as [cpus2 [[u2 m2]|]].
      * destruct (get_next_freq sg1 p u2 m2) as [sg2 f].
        now destruct (sugov_update_commit _ _ _ _ _) as [[sg3 p3] evs].
      * now destruct (sugov_update_commit _ _ _ _ _) as [[sg3 p3] evs].
Qed.

Lemma decayed_boost (c : sugov_cpu) :
  iowait_boost (decayed c) = iowait_boost c / 2
  /\ iowait_boost_max (decayed c) = iowait_boost_max c.
Proof.
  unfold decayed. destruct (Z.eqb_spec (iowait_boost c) 0) as [Hz|Hnz].
  - rewrite Hz. done.
  - simpl. rewrite Z.shiftr_div_pow2 by lia. done.
Qed.

(** X7.  Every call of [sugov_iowait_boost] halves the core's boost,
    whatever the sample and whether or not the boost is substituted for it:
    after the calls for [k] samples a boost [b >= 0] is [b / 2^k], and the
    configured maximum is untouched. *)
Theorem sugov_iowait_boost_decays (samples : list (Z * Z)) :
  forall c : sugov_cpu,
    0 <= iowait_boost c ->
    iowait_boost (sugov_iowait_boost_over c samples)
    = iowait_boost c / 2 ^ Z.of_nat (length samples)
    /\ iowait_boost_max (sugov_iowait_boost_over c samples)
       = iowait_boost_max c.
Proof.
  induction samples as [|[u m] samples IH]; intros c Hc.
  - simpl. rewrite Z.div_1_r. done.
  - unfold sugov_iowait_boost_over. simpl fold_left.
    fold (sugov_iowait_boost_over (sugov_iowait_boost c u m).1.1 samples).
    rewrite sugov_iowait_boost_state.
    destruct (decayed_boost c) as [Hb Hm].
    destruct (IH (decayed c)) as [IHb IHm].
    { rewrite Hb. apply Z.div_pos; lia. }
    rewrite IHb, IHm, Hb, Hm. split; [|done].
    rewrite Z.div_div by lia.
    replace (Z.of_nat (length ((u, m) :: samples)))
      with (Z.succ (Z.of_nat (length samples))) by (simpl length; lia).
    rewrite Z.pow_succ_r by lia. done.
Qed.

(** X8.  For a core and a sample in range, [sugov_iowait_boost] hands back
    either the sample or the core's boost pair, and never a pair with a
    lower ratio than the sample; without a pending boost it hands back the
    sample and leaves the core alone. *)
Theorem sugov_iowait_boost_raises (c : sugov_cpu) (u m : Z) :
  cpu_in_range c -> pair_in_range (u, m) ->
  let '(c', u', m') := sugov_iowait_boost c u m in
  ((u', m') = (u, m) \/ (u', m') = (iowait_boost c, iowait_boost_max c))
  /\ u * m' <= u' * m
  /\ pair_in_range (u', m')
  /\ (iowait_boost c = 0 -> (c', u', m') = (c, u, m)).
Proof.
  intros (_ & Hb & Hbm) (Hu & Hm). simpl in Hu, Hm.
  unfold sugov_iowait_boost.
  destruct (Z.eqb_spec (iowait_boost c) 0) as [Hz|Hnz].
  - split; [now left|]. split; [lia|]. split; [|done].
    unfold pair_in_range. simpl. lia.
  - specialize (Hbm Hnz). rewrite !u64_mul_in_range by lia.
    destruct (Z.ltb_spec (u * iowait_boost_max c) (m * iowait_boost c)).
    + split; [now right|]. split; [lia|]. split; [|done].
      unfold pair_in_range. simpl. lia.
    + split; [now left|]. split; [lia|]. split; [|done].
      unfold pair_in_range. simpl. lia.
Qed.

(** *** The utilisation sample *)

(** X9.  Under PELT the utilisation that [sugov_get_util] reports never
    exceeds the capacity it reports, which is the cpu's capacity.  When the
    share of the RT average to remove is larger than the utilisation, the
    unsigned subtraction wraps and the reported utilisation is the full
    capacity. *)
Theorem sugov_get_util_clamped (env : sched_env) :
  use_pelt env = true ->
  let '(u, m) := sugov_get_util env in
  m = arch_scale_cpu_capacity env
  /\ u <= m
  /\ (let u1 := if sched_feat_UTIL_EST env
                then Z.max (boosted_cpu_util env) (util_est_enqueued env)
                else boosted_cpu_util env in
      let removed :=
        u64 (rt_avg env * sched_rt_remove_ratio_for_freq env) / 100 in
      sched_rt_remove_ratio_for_freq env <> 0 ->
      0 <= u1 < removed ->
      arch_scale_cpu_capacity env <= 2 ^ 63 ->
      u = m).
Proof.
  intros Hpelt. unfold sugov_get_util. rewrite Hpelt.
  split; [done|]. split; [lia|].
  cbv zeta. intros Hratio Hu1 Hcap.
  set (u1 := if sched_feat_UTIL_EST env
             then Z.max (boosted_cpu_util env) (util_est_enqueued env)
             else boosted_cpu_util env) in *.
  set (removed :=
         u64 (rt_avg env * sched_rt_remove_ratio_for_freq env) / 100) in *.
  destruct (Z.eqb_spec (sched_rt_remove_ratio_for_freq env) 0); [done|].
  assert (removed < 2 ^ 58) as Hrem.
  { subst removed. unfold u64.
    pose proof (Z.mod_pos_bound
                  (rt_avg env * sched_rt_remove_ratio_for_freq env) (2 ^ 64)
                  ltac:(lia)) as Hb.
    apply Z.div_lt_upper_bound; lia. }
  assert (u64 (u1 - removed) = u1 - removed + 2 ^ 64) as ->.
  { unfold u64. symmetry. apply Z.mod_unique_pos with (q := -1); lia. }
  lia.
Qed.

(** *** Rate limits: the tunables and the delays derived from them *)

Lemma s64_us_to_ns (v : Z) :
  0 <= v < 2 ^ 32 -> s64 (v * NSEC_PER_USEC) = 1000 * v.
Proof. intros Hv. unfold NSEC_PER_USEC. rewrite s64_small; lia. Qed.

(** X10.  A store to [up_rate_limit_us] or [down_rate_limit_us] whose text
    does not parse returns [-EINVAL] and changes neither the tunables nor
    any policy.  A store of [v] returns [count], sets that tunable only,
    and gives every policy on the tunables' list the delay [1000 * v]
    nanoseconds in that direction, with the minimum delay recomputed as the
    smaller of the two delays and every other field kept. *)
Theorem rate_limit_us_store_propagates (tunables : sugov_tunables)
  (policy_list : list sugov_policy) (parsed : option Z) (count : Z) :
  (forall v, parsed = Some v -> 0 <= v < 2 ^ 32) ->
  (parsed = None ->
   up_rate_limit_us_store tunables policy_list parsed count
   = (- EINVAL, tunables, policy_list)
   /\ down_rate_limit_us_store tunables policy_list parsed count
      = (- EINVAL, tunables, policy_list))
  /\ (forall v, parsed = Some v ->
      up_rate_limit_us_store tunables policy_list parsed count
      = (count,
         {| up_rate_limit_us := v;
            down_rate_limit_us := down_rate_limit_us tunables |},
         List.map
           (fun sg =>
              set_min_rate_limit_ns (Z.min (1000 * v) (down_rate_delay_ns sg))
                (set_up_rate_delay_ns (1000 * v) sg))
           policy_list)
      /\ down_rate_limit_us_store tunables policy_list parsed count
         = (count,
            {| up_rate_limit_us := up_rate_limit_us tunables;
               down_rate_limit_us := v |},
            List.map
              (fun sg =>
                 set_min_rate_limit_ns (Z.min (up_rate_delay_ns sg) (1000 * v))
                   (set_down_rate_delay_ns (1000 * v) sg))
              policy_list)
      /\ Forall
           (fun sg =>
              min_rate_limit_ns sg
              = Z.min (up_rate_delay_ns sg) (down_rate_delay_ns sg))
           ((up_rate_limit_us_store tunables policy_list parsed count).2
            ++ (down_rate_limit_us_store tunables policy_list parsed count).2)).
Proof.
  intros Hrange. split.
  - intros ->. done.
  - intros v ->. specialize (Hrange v eq_refl).
    unfold up_rate_limit_us_store, down_rate_limit_us_store.
    rewrite s64_us_to_ns by done.
    split; [done|]. split; [done|]. simpl.
    apply Forall_app. split; apply Forall_forall; intros sg' Hin;
      apply list_elem_of_In, List.in_map_iff in Hin as (sg & <- & _); done.
Qed.

(** X11.  [sugov_update_rate_limit_us] does nothing for a policy without
    governor data or without tunables.  Otherwise, for limits of
    [0 <= ms] milliseconds whose microsecond value fits [unsigned int], it
    sets the tunables to [1000 * ms] microseconds and the policy's delays
    to the same time in nanoseconds, with the minimum delay the smaller of
    the two; a later [sugov_start] derives the same three delays from the
    tunables. *)
Theorem sugov_update_rate_limit_us_consistent (sg : sugov_policy)
  (tunables : sugov_tunables) (up_ms down_ms : Z) :
  0 <= up_ms -> up_ms * 1000 < 2 ^ 32 ->
  0 <= down_ms -> down_ms * 1000 < 2 ^ 32 ->
  sugov_update_rate_limit_us None (Some tunables) up_ms down_ms
  = (None, Some tunables)
  /\ sugov_update_rate_limit_us (Some sg) None up_ms down_ms = (Some sg, None)
  /\ exists (sg' : sugov_policy) (t' : sugov_tunables),
       sugov_update_rate_limit_us (Some sg) (Some tunables) up_ms down_ms
       = (Some sg', Some t')
       /\ up_rate_limit_us t' = 1000 * up_ms
       /\ down_rate_limit_us t' = 1000 * down_ms
       /\ up_rate_delay_ns sg' = 1000 * up_rate_limit_us t'
       /\ down_rate_delay_ns sg' = 1000 * down_rate_limit_us t'
       /\ min_rate_limit_ns sg'
          = Z.min (up_rate_delay_ns sg') (down_rate_delay_ns sg')
       /\ forall (sg_ptr : nat) (p : cpufreq_policy) (policy_cpus : cpumask)
                 (pcpu : list sugov_cpu) (slack : list sugov_slack),
            let started :=
              (sugov_start sg_ptr sg' t' p policy_cpus pcpu slack).1.1.1 in
            up_rate_delay_ns started = up_rate_delay_ns sg'
            /\ down_rate_delay_ns started = down_rate_delay_ns sg'
            /\ min_rate_limit_ns started = min_rate_limit_ns sg'.
Proof.
  intros Hup Hup32 Hdown Hdown32.
  split; [done|]. split; [done|].
  eexists _, _. split; [reflexivity|].
  unfold USEC_PER_MSEC, NSEC_PER_MSEC. simpl.
  assert (u32 (up_ms * 1000) = 1000 * up_ms) as Eu
    by (unfold u32; rewrite Z.mod_small; lia).
  assert (u32 (down_ms * 1000) = 1000 * down_ms) as Ed
    by (unfold u32; rewrite Z.mod_small; lia).
  rewrite Eu, Ed, !s64_small by lia.
  assert (s64 (1000 * up_ms * NSEC_PER_USEC) = up_ms * 1000000) as ->
    by (unfold NSEC_PER_USEC; rewrite s64_small; lia).
  assert (s64 (1000 * down_ms * NSEC_PER_USEC) = down_ms * 1000000) as ->
    by (unfold NSEC_PER_USEC; rewrite s64_small; lia).
  repeat split; lia.
Qed.

(** *** Loops over the cpus of a policy *)

Lemma fold_alter_lookup {A : Type} `{!Inhabited A} (body : A -> A)
  (js : list nat) :
  forall l : list A,
    List.NoDup js ->
    (forall j, In j js -> (j < length l)%nat) ->
    length (fold_left (fun l cpu => alter body cpu l) js l) = length l
    /\ (forall j, In j js ->
          fold_left (fun l cpu => alter body cpu l) js l !!! j
          = body (l !!! j))
    /\ (forall j, ~ In j js ->
          fold_left (fun l cpu => alter body cpu l) js l !!! j = l !!! j).
Proof.
  induction js as [|i js IH]; intros l Hnd Hlen; [done|].
  apply List.NoDup_cons_iff in Hnd as [Hi Hnd]. simpl.
  destruct (IH (alter body i l) Hnd) as (Hl & Hin & Hout).
  { intros j Hj. rewrite length_alter. apply Hlen. now right. }
  rewrite length_alter in Hl. split; [done|]. split.
  - intros j [<-|Hj].
    + rewrite Hout by done. apply list_lookup_total_alter_eq.
      apply Hlen. now left.
    + rewrite Hin by done.
      rewrite list_lookup_total_alter_ne by congruence. done.
  - intros j Hj. rewrite Hout by (intros ?; apply Hj; now right).
    apply list_lookup_total_alter_ne. intros ->. apply Hj. now left.
Qed.

Lemma for_each_per_cpu_lookup {A : Type} `{!Inhabited A} (body : A -> A)
  (mask : cpumask) (pcpu : list A) (j : nat) :
  length pcpu = nr_cpu_ids ->
  for_each_per_cpu body mask pcpu !!! j
  = if (j <? nr_cpu_ids)%nat && cpumask_test_cpu j mask
    then body (pcpu !!! j) else pcpu !!! j.
Proof.
  intros Hlen. unfold for_each_per_cpu.
  destruct (fold_alter_lookup body (for_each_cpu nr_cpu_ids mask) pcpu)
    as (_ & Hin & Hout).
  { apply for_each_cpu_NoDup. }
  { intros i Hi. apply for_each_cpu_spec in Hi as [Hi _]. lia. }
  destruct ((j <? nr_cpu_ids)%nat && cpumask_test_cpu j mask) eqn:E.
  - apply andb_true_iff in E as [Hj Hm]. apply Nat.ltb_lt in Hj.
    apply Hin. now apply for_each_cpu_spec.
  - apply Hout. intros Hj. apply for_each_cpu_spec in Hj as [Hj Hm].
    apply Nat.ltb_lt in Hj. rewrite Hj, Hm in E. done.
Qed.

(** *** Starting the governor on a policy *)

(** X12.  [sugov_start] leaves the group with an unknown committed target,
    an empty cache, no change in flight, no forced recompute pending, time
    stamp 0, the delays of the tunables in nanoseconds and their minimum.
    Every cpu of [policy->cpus], and no other, gets a zeroed per-cpu object
    that points to the group and has the policy's hardware maximum as boost
    maximum, gets its slack timer started (when slack is enabled for it),
    and gets one update hook: the shared one exactly when the policy has
    more than one cpu.  Such a cpu counts as stale in the aggregation at
    every time later than a tick (and below 2^63) until it is sampled. *)
Theorem sugov_start_resets (sg_ptr : nat) (sg : sugov_policy)
  (tunables : sugov_tunables) (p : cpufreq_policy) (policy_cpus : cpumask)
  (pcpu : list sugov_cpu) (slack : list sugov_slack) :
  length pcpu = nr_cpu_ids ->
  length slack = nr_cpu_ids ->
  0 <= up_rate_limit_us tunables < 2 ^ 32 ->
  0 <= down_rate_limit_us tunables < 2 ^ 32 ->
  let member := fun j : nat =>
    (j <? nr_cpu_ids)%nat && cpumask_test_cpu j policy_cpus in
  let '(sg', pcpu', slack', hooks) :=
    sugov_start sg_ptr sg tunables p policy_cpus pcpu slack in
  (next_freq sg' = UINT_MAX /\ cached_raw_freq sg' = 0
   /\ last_freq_update_time sg' = 0 /\ work_in_progress sg' = false
   /\ need_freq_update sg' = false /\ policy sg' = policy sg)
  /\ (up_rate_delay_ns sg' = 1000 * up_rate_limit_us tunables
      /\ down_rate_delay_ns sg' = 1000 * down_rate_limit_us tunables
      /\ min_rate_limit_ns sg'
         = Z.min (up_rate_delay_ns sg') (down_rate_delay_ns sg'))
  /\ (forall j : nat,
        pcpu' !!! j = if member j then sugov_cpu_started sg_ptr p
                      else pcpu !!! j)
  /\ (forall j : nat,
        slack' !!! j = if member j then sugov_start_slack (slack !!! j)
                       else slack !!! j)
  /\ (forall (j : nat) (h : update_util_hook),
        In (j, h) hooks <->
        member j = true
        /\ h = if 1 <? cpumask_weight nr_cpu_ids policy_cpus
               then hook_sugov_update_shared else hook_sugov_update_single)
  /\ (forall (j : nat) (time : Z),
        member j = true -> 0 <= time < 2 ^ 63 -> TICK_NSEC < time ->
        stale time (pcpu' !!! j) = true).
Proof.
  intros Hlen Hslack Hup Hdown member. unfold sugov_start.
  rewrite !s64_us_to_ns by done.
  assert (forall j : nat,
            for_each_per_cpu (fun _ => sugov_cpu_started sg_ptr p)
              policy_cpus pcpu !!! j
            = if member j then sugov_cpu_started sg_ptr p else pcpu !!! j)
    as Hpcpu.
  { intros j. now rewrite for_each_per_cpu_lookup. }
  split; [done|]. split; [done|]. split; [exact Hpcpu|]. split; [|split].
  - intros j. now rewrite for_each_per_cpu_lookup.
  - intros j h. rewrite List.in_map_iff. unfold policy_is_shared. split.
    + intros (cpu & [= <- <-] & Hin). split; [|done].
      apply for_each_cpu_spec in Hin as [Hlt Hm]. subst member. simpl.
      rewrite Hm. now apply Nat.ltb_lt in Hlt as ->.
    + intros [Hm ->]. exists j. split; [done|].
      subst member. simpl in Hm. apply andb_true_iff in Hm as [Hlt Hm].
      apply for_each_cpu_spec. now apply Nat.ltb_lt in Hlt.
  - intros j time Hm Htime Htick. rewrite Hpcpu, Hm.
    unfold stale, delta_ns. simpl.
    rewrite Z.sub_0_r, s64_small by lia. apply Z.ltb_lt. lia.
Qed.

(** *** The slack timer *)

Lemma sugov_need_slack_timer_true (c : sugov_cpu) (x : sugov_slack)
  (e : slack_env) :
  sugov_need_slack_timer c x e = true <->
  schedtune_cpu_boost e = 0 /\ min x < util c
  /\ expired_time x < get_next_event_time_ms e.
Proof.
  unfold sugov_need_slack_timer.
  destruct (Z.eqb_spec (schedtune_cpu_boost e) 0);
    destruct (Z.ltb_spec (min x) (util c));
    destruct (Z.ltb_spec (expired_time x) (get_next_event_time_ms e));
    simpl; split; intros; try done; lia.
Qed.

(** X13.  On [CPU_PM_ENTER_PREPARE] a started slack timer ends up pending
    exactly when the cpu is not boosted by schedtune, its last utilisation
    is above the slack threshold and the value of
    [get_next_event_time_ms()] is above [expired_time], compared as plain
    numbers: the former is the predicted sleep in microseconds
    ([ktime_to_us]), the latter a count of milliseconds, so a predicted
    sleep of 1 ms (1000) passes an expiry time of 70.  The timer is then
    (re)armed to expire [expired_time] milliseconds after the current
    jiffies and one trace record is written.  Otherwise no timer is left
    pending.  The threshold, the expiry time and the started and enabled
    marks are not touched. *)
Theorem sugov_pm_notifier_enter_prepare (c : sugov_cpu) (x : sugov_slack)
  (e : slack_env) :
  started x = true ->
  let needed := schedtune_cpu_boost e = 0 /\ min x < util c
                /\ expired_time x < get_next_event_time_ms e in
  let '(ret, x', traces) := sugov_pm_notifier c x e CPU_PM_ENTER_PREPARE in
  ret = NOTIFY_OK
  /\ (timer_pending (timer x') = true <-> needed)
  /\ (needed ->
      expires (timer x')
      = u64 (jiffies e + msecs_to_jiffies e (u32 (expired_time x)))
      /\ length traces = 1%nat)
  /\ (~ needed -> expires (timer x') = expires (timer x) /\ traces = [])
  /\ min x' = min x /\ enabled x' = enabled x /\ started x' = started x
  /\ expired_time x' = expired_time x.
Proof.
  intros Hstarted needed. unfold sugov_pm_notifier. rewrite Hstarted. simpl negb.
  cbv iota.
  set (x1 := if timer_pending (timer x)
             then set_timer (del_timer_sync (timer x)) x else x).
  assert (sugov_need_slack_timer c x1 e = sugov_need_slack_timer c x e) as Hsame
    by (subst x1; now destruct (timer_pending (timer x))).
  assert (min x1 = min x /\ enabled x1 = enabled x /\ started x1 = started x
          /\ expired_time x1 = expired_time x
          /\ timer_pending (timer x1) = false
          /\ expires (timer x1) = expires (timer x)) as (H1 & H2 & H3 & H4 & H5 & H6).
  { subst x1. destruct (timer_pending (timer x)) eqn:E; done. }
  rewrite Hsame.
  pose proof (sugov_need_slack_timer_true c x e) as Hneed. fold needed in Hneed.
  destruct (sugov_need_slack_timer c x e).
  - assert needed as Hn by now apply Hneed.
    simpl. rewrite H4.
    split; [done|]. split; [done|]. split; [done|].
    split; [intros; done|]. repeat split; congruence.
  - assert (~ needed) as Hn by (intros Hn; apply Hneed in Hn; done).
    rewrite H5.
    split; [done|]. split; [split; [done|intros; done]|].
    split; [intros; done|]. split; [intros; done|].
    repeat split; congruence.
Qed.

(** X14.  Outside [CPU_PM_ENTER_PREPARE], and always for a slack timer that
    is not started, the notifier never arms a timer and never moves its
    expiry: a timer pending afterwards was pending before.  On
    [CPU_PM_ENTER] a timer stays pending only if it is still needed, on
    [CPU_PM_EXIT_POST] only if its expiry is not after the current jiffies;
    a slack timer that is not started is left as it is, without a trace.
    The notifier answers [NOTIFY_OK] in every case. *)
Theorem sugov_pm_notifier_only_cancels (c : sugov_cpu) (x : sugov_slack)
  (e : slack_env) (action : cpu_pm_event) :
  action <> CPU_PM_ENTER_PREPARE \/ started x = false ->
  let '(ret, x', traces) := sugov_pm_notifier c x e action in
  ret = NOTIFY_OK
  /\ (timer_pending (timer x') = true -> timer_pending (timer x) = true)
  /\ expires (timer x') = expires (timer x)
  /\ min x' = min x /\ started x' = started x
  /\ (started x = false -> x' = x /\ traces = [])
  /\ (started x = true -> action = CPU_PM_ENTER ->
      timer_pending (timer x') = true ->
      sugov_need_slack_timer c x e = true)
  /\ (started x = true -> action = CPU_PM_EXIT_POST ->
      timer_pending (timer x') = true ->
      time_after (expires (timer x)) (jiffies e) = false).
Proof.
  intros Hcase. unfold sugov_pm_notifier.
  destruct (started x) eqn:Hstarted; simpl negb; cbv iota.
  - destruct Hcase as [Hact|]; [|done].
    destruct action; try done.
    + destruct (timer_pending (timer x)) eqn:Hp; simpl.
      * destruct (sugov_need_slack_timer c x e); simpl;
          repeat split; intros; try done; congruence.
      * repeat split; intros; try done; congruence.
    + destruct (timer_pending (timer x)) eqn:Hp; simpl.
      * destruct (time_after (expires (timer x)) (jiffies e)); simpl;
          repeat split; intros; try done; congruence.
      * repeat split; intros; try done; congruence.
  - repeat split; intros; try done; congruence.
Qed.

(** X15.  [sugov_start_slack] on a cpu with slack enabled marks the timer
    started and puts the threshold at [ULONG_MAX], so that no utilisation
    is above it and [CPU_PM_ENTER_PREPARE] arms no timer until the
    threshold is recomputed; on a cpu without slack it changes nothing.
    [sugov_stop_slack] leaves the timer not started and not pending, and
    the notifier then does nothing on any event. *)
Theorem sugov_slack_start_stop (c : sugov_cpu) (x : sugov_slack)
  (e : slack_env) :
  0 <= util c <= ULONG_MAX ->
  (enabled x = 0 -> sugov_start_slack x = x)
  /\ (enabled x <> 0 ->
      started (sugov_start_slack x) = true
      /\ min (sugov_start_slack x) = ULONG_MAX
      /\ timer_pending
           (timer (sugov_pm_notifier c (sugov_start_slack x) e
                     CPU_PM_ENTER_PREPARE).1.2) = false)
  /\ started (sugov_stop_slack x) = false
  /\ timer_pending (timer (sugov_stop_slack x)) = false
  /\ forall action : cpu_pm_event,
       sugov_pm_notifier c (sugov_stop_slack x) e action
       = (NOTIFY_OK, sugov_stop_slack x, []).
Proof.
  intros Hutil. split; [|split; [|split; [|split]]].
  - intros Hz. unfold sugov_start_slack. now rewrite Hz.
  - intros Hnz. unfold sugov_start_slack.
    destruct (Z.eqb_spec (enabled x) 0); [done|].
    split; [done|]. split; [done|].
    assert (forall y : sugov_slack,
              min y = ULONG_MAX -> sugov_need_slack_timer c y e = false)
      as Hnever.
    { intros y Hy. destruct (sugov_need_slack_timer c y e) eqn:E; [|done].
      apply sugov_need_slack_timer_true in E as (_ & Hlt & _). lia. }
    unfold sugov_pm_notifier. simpl started. simpl negb. cbv iota.
    destruct (timer_pending (timer (set_started true (set_min ULONG_MAX x))))
      eqn:Hp; rewrite Hnever by done; [reflexivity|exact Hp].
  - unfold sugov_stop_slack. simpl. now destruct (timer_pending (timer x)).
  - unfold sugov_stop_slack. simpl.
    destruct (timer_pending (timer x)) eqn:E; done.
  - intros action. unfold sugov_pm_notifier.
    assert (started (sugov_stop_slack x) = false) as ->; [|done].
    unfold sugov_stop_slack. simpl. now destruct (timer_pending (timer x)).
Qed.

(** *** The slack threshold and a limits change *)

Lemma s32_small (z : Z) : 0 <= z < 2 ^ 31 -> s32 z = z.
Proof.
  intros Hz. unfold s32. rewrite Z.mod_small by lia.
  destruct (Z.ltb_spec z (2 ^ 31)); lia.
Qed.

Lemma min_cap_of_exact (p : cpufreq_policy) (cap : Z) :
  0 < cap < 2 ^ 29 -> 0 <= policy_min p <= policy_max p ->
  0 < policy_max p -> cap * policy_min p < 2 ^ 32 ->
  min_cap_of p cap = cap * policy_min p / policy_max p * 4 / 5 + 1
  /\ 0 < min_cap_of p cap <= cap.
Proof.
  intros Hcap Hmin Hmax Hprod. unfold min_cap_of.
  rewrite (s32_small cap) by lia.
  assert (0 <= cap * policy_min p) by (apply Z.mul_nonneg_nonneg; lia).
  assert (u32 cap = cap) as -> by (unfold u32; apply Z.mod_small; lia).
  assert (u32 (cap * policy_min p) = cap * policy_min p) as ->
    by (unfold u32; apply Z.mod_small; lia).
  set (x := cap * policy_min p / policy_max p).
  assert (0 <= x <= cap) as Hx.
  { subst x. split; [apply Z.div_pos; lia|].
    apply Z.div_le_upper_bound; [lia|]. nia. }
  rewrite (s32_small x), (s32_small (x * 4)) by lia.
  rewrite Z.quot_div_nonneg by lia.
  assert (0 <= x * 4 / 5 <= x) as Hy.
  { split; [apply Z.div_pos; lia|]. apply Z.div_le_upper_bound; lia. }
  rewrite s32_small by lia. split; [done|].
  destruct (Z.eq_dec x 0) as [Hz|Hnz].
  - assert (x * 4 / 5 = 0) as -> by (rewrite Hz; reflexivity). lia.
  - assert (x * 4 / 5 < x) by (apply Z.div_lt_upper_bound; lia). lia.
Qed.

(** X16.  For a capacity, a policy minimum and a policy maximum in range,
    [sugov_update_min] stores on every cpu of the policy, and on no other,
    the threshold [capacity * min / max * 4 / 5 + 1]; for every utilisation
    below that threshold the selector's raw candidate (at a reference
    frequency that does not exceed the policy maximum) is at most the
    policy minimum, and such a utilisation never asks for the slack
    timer. *)
Theorem sugov_update_min_threshold (p : cpufreq_policy) (policy_cpus : cpumask)
  (cap : Z) (slack : list sugov_slack) :
  length slack = nr_cpu_ids ->
  0 < cap < 2 ^ 29 -> 0 <= policy_min p <= policy_max p ->
  0 < policy_max p -> policy_max p + policy_max p / 4 <= UINT_MAX ->
  cap * policy_min p < 2 ^ 32 ->
  0 <= (if arch_scale_freq_invariant then policy_max p else policy_cur p)
    <= policy_max p ->
  let threshold := cap * policy_min p / policy_max p * 4 / 5 + 1 in
  let slack' := sugov_update_min p policy_cpus cap slack in
  (forall j : nat,
     slack' !!! j
     = if (j <? nr_cpu_ids)%nat && cpumask_test_cpu j policy_cpus
       then set_min threshold (slack !!! j) else slack !!! j)
  /\ (forall u : Z, 0 <= u < threshold -> raw_freq p u cap <= policy_min p)
  /\ (forall (j : nat) (c : sugov_cpu) (e : slack_env),
        (j <? nr_cpu_ids)%nat && cpumask_test_cpu j policy_cpus = true ->
        util c <= threshold ->
        sugov_need_slack_timer c (slack' !!! j) e = false).
Proof.
  intros Hlen Hcap Hmin Hmax Htp Hprod Href threshold slack'.
  destruct (min_cap_of_exact p cap Hcap Hmin Hmax Hprod) as [Hexact Hpos].
  fold threshold in Hexact.
  assert (forall j : nat,
            slack' !!! j
            = if (j <? nr_cpu_ids)%nat && cpumask_test_cpu j policy_cpus
              then set_min threshold (slack !!! j) else slack !!! j) as Hslack.
  { intros j. subst slack'. unfold sugov_update_min.
    rewrite for_each_per_cpu_lookup by done. rewrite Hexact.
    now rewrite u64_small by lia. }
  split; [exact Hslack|]. split.
  - intros u Hu.
    set (f := if arch_scale_freq_invariant then policy_max p else policy_cur p)
      in *.
    set (x := cap * policy_min p / policy_max p) in *.
    assert (0 <= x) as Hx0 by (subst x; apply Z.div_pos; nia).
    assert (x * policy_max p <= cap * policy_min p) as Hxm.
    { subst x. rewrite Z.mul_comm. apply Z.mul_div_le. lia. }
    assert (5 * u <= 4 * x) as Hu5.
    { assert (u <= x * 4 / 5) as Hle by (subst threshold; lia).
      pose proof (Z.mul_div_le (x * 4) 5 ltac:(lia)). lia. }
    assert (0 <= f / 4) as Hq by (apply Z.div_pos; lia).
    assert (4 * (f + f / 4) <= 5 * policy_max p) as Htp4.
    { pose proof (Z.mul_div_le f 4 ltac:(lia)). lia. }
    assert ((f + f / 4) * u <= cap * policy_min p) as Hbound by nia.
    assert (f + f / 4 <= UINT_MAX) as Hf32.
    { assert (f / 4 <= policy_max p / 4) by (apply Z.div_le_mono; lia). lia. }
    assert (0 <= (f + f / 4) * u) by (apply Z.mul_nonneg_nonneg; lia).
    assert ((f + f / 4) * u / cap <= policy_min p) as Hres.
    { apply Z.div_le_upper_bound; lia. }
    rewrite raw_freq_exact; fold f; try lia.
    + apply Z.le_trans with (cap * policy_min p); [exact Hbound|].
      unfold ULONG_MAX. lia.
    + apply Z.le_trans with (policy_min p); [exact Hres|].
      unfold UINT_MAX in *. lia.
  - intros j c e Hj Hutil. rewrite Hslack, Hj.
    destruct (sugov_need_slack_timer c (set_min threshold (slack !!! j)) e)
      eqn:E; [|done].
    apply sugov_need_slack_timer_true in E as (_ & Hlt & _). simpl in Hlt. lia.
Qed.

(** X17.  [sugov_limits] does nothing for a policy without governor data.
    Otherwise it recomputes the slack threshold of the policy's cpus, asks
    the cpufreq core to apply the limits exactly when the policy does not
    use fast switching, and marks the group.  With no change in flight the
    next sample then passes the gate at whatever time it comes, and the
    selector does not answer from its cache for any utilisation: it stores
    the candidate and returns the driver's resolution of it.  With a change
    in flight the mark survives, and the gate passes as soon as the worker
    has finished. *)
Theorem sugov_limits_forces_update (sg : sugov_policy) (p : cpufreq_policy)
  (policy_cpus : cpumask) (cap : Z) (slack : list sugov_slack) :
  sugov_limits None p policy_cpus cap slack = (None, slack, [])
  /\ exists sg0 : sugov_policy,
       sugov_limits (Some sg) p policy_cpus cap slack
       = (Some sg0, sugov_update_min p policy_cpus cap slack,
          if fast_switch_enabled p then []
          else [cpufreq_policy_apply_limits p])
       /\ (work_in_progress sg = false ->
           forall time : Z,
             let '(sg1, go) := sugov_should_update_freq sg0 time in
             go = true /\ need_freq_update sg1 = false
             /\ forall u m : Z,
                  get_next_freq sg1 p u m
                  = (set_cached_raw_freq (raw_freq p u m) sg1,
                     cpufreq_driver_resolve_freq p (raw_freq p u m)))
       /\ (work_in_progress sg = true ->
           forall time : Z,
             sugov_should_update_freq sg0 time = (sg0, false)
             /\ (sugov_should_update_freq (sugov_work sg0 p).1 time).2 = true).
Proof.
  split; [done|]. exists (set_need_freq_update true sg).
  split; [reflexivity|]. split.
  - intros Hidle time. unfold sugov_should_update_freq. simpl. rewrite Hidle.
    split; [done|]. split; [done|]. intros u m.
    unfold get_next_freq. simpl. now rewrite andb_false_r.
  - intros Hbusy time. unfold sugov_should_update_freq. simpl.
    now rewrite Hbusy.
Qed.

(** *** Resolving a QoS class *)

(** X18.  [find_cpu_pm_qos_class] answers with the lowest-numbered possible
    cpu that belongs to the class and is active, whenever there is one, and
    with [-EINVAL] when there is none; the notifier then fails with
    [NOTIFY_BAD] without a hardware call. *)
Theorem find_cpu_pm_qos_class_first (g : governor) (pm_qos_class : Z) :
  let member := fun cpu : nat =>
    (cpu < nr_cpu_ids)%nat
    /\ cpumask_test_cpu cpu (cpu_possible_mask g) = true
    /\ cpumask_test_cpu cpu (cpu_active_mask g) = true
    /\ qos_min_class (pcpu_sugov_exynos g !!! cpu) = pm_qos_class in
  (forall cpu : nat, member cpu ->
     exists c : nat,
       find_cpu_pm_qos_class g pm_qos_class = Z.of_nat c
       /\ member c /\ (c <= cpu)%nat)
  /\ ((forall cpu : nat, ~ member cpu) ->
      find_cpu_pm_qos_class g pm_qos_class = - EINVAL
      /\ forall val : Z,
           sugov_pm_qos_callback g val pm_qos_class = (NOTIFY_BAD, [])).
Proof.
  intros member. unfold find_cpu_pm_qos_class.
  destruct (List.find _ _) as [c|] eqn:Hfind.
  - apply for_each_cpu_find_first in Hfind as (Hc & Hposs & Hf & Hmin).
    apply andb_true_iff in Hf as [Hclass Hact]. apply Z.eqb_eq in Hclass.
    assert (member c) as Hmc by done.
    split.
    + intros cpu (Hcpu & Hcp & Hca & Hcc). exists c.
      split; [done|]. split; [done|].
      destruct (Nat.le_gt_cases c cpu) as [Hle|Hgt]; [done|].
      specialize (Hmin cpu Hgt Hcp). cbv beta in Hmin.
      rewrite Hca in Hmin.
      apply andb_false_iff in Hmin as [Hne|]; [|done].
      apply Z.eqb_neq in Hne. done.
    + intros Hnone. exfalso. now apply (Hnone c).
  - pose proof (for_each_cpu_find_none _ _ _ Hfind) as Hnone.
    split.
    + intros cpu (Hcpu & Hcp & Hca & Hcc).
      specialize (Hnone cpu Hcpu Hcp). cbv beta in Hnone.
      rewrite Hca in Hnone.
      apply andb_false_iff in Hnone as [Hne|]; [|done].
      apply Z.eqb_neq in Hne. done.
    + intros _. split; [done|]. intros val.
      unfold sugov_pm_qos_callback, find_cpu_pm_qos_class.
      rewrite Hfind. reflexivity.
Qed.

(** X19.  The min-QoS notifier makes at most one hardware call, and answers
    [NOTIFY_OK] exactly when it made it; when the resolved cpu has no
    group, the group has no policy, or the cpufreq core has no policy for
    the cpu, it answers [NOTIFY_BAD] without a call. *)
Theorem sugov_pm_qos_callback_result (g : governor) (val pm_qos_class : Z) :
  let '(ret, calls) := sugov_pm_qos_callback g val pm_qos_class in
  (length calls <= 1)%nat
  /\ (ret = NOTIFY_OK <-> length calls = 1%nat)
  /\ (forall cpu : nat,
        find_cpu_pm_qos_class g pm_qos_class = Z.of_nat cpu ->
        sg_policy (pcpu_sugov_cpu g !!! cpu) = None
        \/ (exists a sgp, sg_policy (pcpu_sugov_cpu g !!! cpu) = Some a
                          /\ sg_policies g !! a = Some sgp
                          /\ policy sgp = None)
        \/ cpufreq_cpu_get g cpu = None ->
        ret = NOTIFY_BAD /\ calls = []).
Proof.
  unfold sugov_pm_qos_callback.
  destruct (Z.ltb_spec (find_cpu_pm_qos_class g pm_qos_class) 0) as [Hneg|Hpos].
  - split; [simpl; lia|]. split; [done|].
    intros cpu Hfind. lia.
  - set (cpu0 := Z.to_nat (find_cpu_pm_qos_class g pm_qos_class)).
    assert (forall cpu : nat,
              find_cpu_pm_qos_class g pm_qos_class = Z.of_nat cpu -> cpu = cpu0)
      as Hcpu by (intros cpu E; subst cpu0; rewrite E; now rewrite Nat2Z.id).
    destruct (sg_policy (pcpu_sugov_cpu g !!! cpu0)) as [a|] eqn:Hsg; simpl.
    + destruct (sg_policies g !! a) as [sgp|] eqn:Hobj.
      * destruct (policy sgp) as [ptr|] eqn:Hpol.
        -- destruct (cpufreq_cpu_get g cpu0) as [p|] eqn:Hget.
           ++ destruct (policy_cur p <=? val).
              ** split; [simpl; lia|]. split; [done|]. intros cpu E.
                 rewrite (Hcpu cpu E). intros _. done.
              ** split; [simpl; lia|]. split; [done|]. intros cpu E.
                 rewrite (Hcpu cpu E).
                 intros [Hn|[(a' & sgp' & Ha & Ho & Hp)|Hn]]; congruence.
           ++ split; [simpl; lia|]. split; [done|]. done.
        -- split; [simpl; lia|]. split; [done|]. done.
      * split; [simpl; lia|]. split; [done|]. done.
    + split; [simpl; lia|]. split; [done|]. done.
Qed.

(** *** The shared update end to end *)

(** X20.  In a shared update that passes the gate, without the deadline
    flag on any fresh core, the sample of the cpu that runs the update is
    recorded first and then takes part in the aggregation as a fresh core:
    the pair handed to the selector has a ratio that is at least the ratio
    of that sample, and the update ends with the commit step applied to the
    frequency the selector returns for that pair. *)
Theorem sugov_update_shared_covers_own_sample (this_cpu : nat)
  (cpus : list sugov_cpu) (sg sg1 : sugov_policy) (p : cpufreq_policy)
  (env : sched_env) (time fl : Z) :
  let js := for_each_cpu nr_cpu_ids
              (cpumask_and (related_cpus p) (cpu_online_mask env)) in
  let u := (sugov_get_util env).1 in
  let m := (sugov_get_util env).2 in
  let cpus1 :=
    <[this_cpu :=
       set_last_update time
         (set_iowait_boost 0 (set_sample u m fl (cpus !!! this_cpu)))]> cpus in
  In this_cpu js ->
  length cpus = nr_cpu_ids ->
  0 <= TICK_NSEC ->
  sugov_should_update_freq sg time = (sg1, true) ->
  flag_set fl SCHED_CPUFREQ_DL = false ->
  existsb deadline (fresh_cpus cpus1 time js) = false ->
  Forall cpu_in_range (fresh_cpus cpus1 time js) ->
  exists U M : Z,
    (U, M) = best_pair (List.map boosted_pair (fresh_cpus cpus1 time js)) (0, 1)
    /\ u * M <= U * m
    /\ (sugov_update_shared this_cpu cpus sg p env time fl).1.1.2
       = (sugov_update_commit (get_next_freq sg1 p U M).1 p env time
            (get_next_freq sg1 p U M).2).1.1
    /\ (sugov_update_shared this_cpu cpus sg p env time fl).2
       = (sugov_update_commit (get_next_freq sg1 p U M).1 p env time
            (get_next_freq sg1 p U M).2).2.
Proof.
  intros js u m cpus1 Hin Hlen Htick Hgate Hdl Hnodl Hwf.
  pose proof (shared_loop_best time js cpus1 0 1
                (for_each_cpu_NoDup _ _) Hnodl Hwf pair_in_range_start) as Hbest.
  destruct (best_pair (List.map boosted_pair (fresh_cpus cpus1 time js)) (0, 1))
    as [U M] eqn:Hw.
  exists U, M. split; [done|]. split.
  - assert ((this_cpu < length cpus)%nat) as Hlt.
    { apply for_each_cpu_spec in Hin as [Hlt _]. lia. }
    assert (cpus1 !!! this_cpu
            = set_last_update time
                (set_iowait_boost 0 (set_sample u m fl (cpus !!! this_cpu))))
      as Hown by (subst cpus1; now apply list_lookup_total_insert_eq).
    assert (In (cpus1 !!! this_cpu) (fresh_cpus cpus1 time js)) as Hfresh.
    { unfold fresh_cpus. apply List.filter_In. split.
      - apply List.in_map_iff. now exists this_cpu.
      - rewrite Hown. unfold stale, delta_ns. simpl.
        rewrite Z.sub_diag. change (s64 0) with 0.
        apply negb_true_iff, Z.ltb_ge. lia. }
    destruct (best_pair_max (List.map boosted_pair (fresh_cpus cpus1 time js))
                (0, 1) pair_in_range_start) as (_ & _ & _ & Hmax).
    { apply Forall_forall. intros x Hx.
      apply list_elem_of_In, List.in_map_iff in Hx as (c & <- & Hc).
      apply boosted_pair_in_range.
      rewrite Forall_forall in Hwf. apply Hwf. now apply list_elem_of_In. }
    rewrite Hw in Hmax.
    specialize (Hmax (boosted_pair (cpus1 !!! this_cpu))
                  (List.in_map _ _ _ Hfresh)).
    rewrite Hown in Hmax. unfold boosted_pair in Hmax. simpl in Hmax. lia.
  - unfold sugov_update_shared.
    destruct (sugov_get_util env) as [u0 m0] eqn:Hutil.
    simpl in u, m. subst u m.
    rewrite sugov_set_iowait_boost_eq. fold cpus1.
    rewrite Hgate, Hdl. unfold sugov_next_freq_shared. fold js.
    destruct (sugov_next_freq_shared_loop cpus1 time js 0 1) as [cpus2 r].
    simpl in Hbest. subst r.
    destruct (get_next_freq sg1 p U M) as [sg2 f]. cbn [fst snd].
    destruct (sugov_update_commit sg2 p env time f) as [[sg3 p3] evs].
    done.
Qed.

End MoreProperties.

(** ** The further properties on concrete objects *)

Lemma sugov_select_scaling_cpu_choice_witness :
  exists c : nat,
    @sugov_select_scaling_cpu example_platform example_env = Z.of_nat c
    /\ idle_cpu example_env c = true /\ (c <= 1)%nat.
Proof.
  destruct (proj1 (@sugov_select_scaling_cpu_choice example_platform
                     example_env) 1%nat)
    as (c & Hr & _ & Hidle & Hle).
  - split; [simpl; lia|reflexivity].
  - reflexivity.
  - exists c. split; [exact Hr|]. split; [exact Hidle|exact Hle].
Defined.

Lemma sugov_update_commit_deferred_witness :
  let '(sg', p', evs) :=
    @sugov_update_commit example_platform (table_driver example_table)
      example_sg_policy example_policy example_env 103000000 1248000 in
  next_freq sg' = 1248000 /\ work_in_progress sg' = true
  /\ evs = [irq_work_queue_on 1].
Proof.
  assert (next_freq example_sg_policy <> 1248000) as Hne
    by (simpl; lia).
  pose proof (@sugov_update_commit_deferred example_platform
                (table_driver example_table) example_sg_policy example_policy
                example_env 103000000 1248000 eq_refl Hne eq_refl) as H.
  cbv zeta in H.
  destruct (@sugov_update_commit example_platform (table_driver example_table)
              example_sg_policy example_policy example_env 103000000 1248000)
    as [[sg' p'] evs].
  destruct H as (_ & Hnext & _ & _ & _ & Hq & _).
  destruct Hq as [Hw Hevs]; [vm_compute; congruence|].
  split; [exact Hnext|]. split; [exact Hw|exact Hevs].
Defined.

Lemma work_in_progress_blocks_updates_witness :
  @sugov_update_single example_platform (table_driver example_table)
    example_cpu (set_work_in_progress true example_sg_policy) example_policy
    example_env 900000000 2
  = (set_last_update 900000000 (set_iowait_boost 0 example_cpu),
     set_work_in_progress true example_sg_policy, example_policy, []).
Proof.
  apply (proj1 (@work_in_progress_blocks_updates example_platform
                  (table_driver example_table)
                  (set_work_in_progress true example_sg_policy)
                  example_policy eq_refl)).
Defined.

Lemma update_within_min_rate_limit_ignored_witness :
  let '(c', sg', p', evs) :=
    @sugov_update_single example_platform (table_driver example_table)
      example_cpu example_sg_policy example_policy example_env
      (u64 (100000000 + 1000000)) 0 in
  sg' = example_sg_policy /\ p' = example_policy /\ evs = [].
Proof.
  assert (0 <= 1000000 < min_rate_limit_ns example_sg_policy) as Hk
    by (simpl; lia).
  assert (1000000 < 2 ^ 63) as Hk63 by lia.
  pose proof (proj1 (@update_within_min_rate_limit_ignored example_platform
                       (table_driver example_table) example_sg_policy
                       example_policy 1000000 eq_refl Hk Hk63)
                example_cpu example_env 0) as H.
  simpl last_freq_update_time in H.
  destruct (@sugov_update_single example_platform (table_driver example_table)
              example_cpu example_sg_policy example_policy example_env
              (u64 (100000000 + 1000000)) 0) as [[[c' sg'] p'] evs].
  destruct H as (Hsg & Hp & Hevs & _).
  split; [exact Hsg|]. split; [exact Hp|exact Hevs].
Defined.

Lemma sugov_update_single_from_unknown_witness :
  let '(c', sg', p', evs) :=
    @sugov_update_single example_platform (table_driver example_table)
      example_cpu (set_need_freq_update true example_sg_policy) example_policy
      example_env 101000000 0 in
  next_freq sg' = UINT_MAX /\ cached_raw_freq sg' = 0 /\ evs = [].
Proof.
  assert (@cpufreq_driver_resolve_freq (table_driver example_table)
            example_policy
            (@raw_freq example_platform example_policy
               (sugov_get_util example_env).1 (sugov_get_util example_env).2)
          < UINT_MAX) as Hf by (vm_compute; reflexivity).
  pose proof (@sugov_update_single_from_unknown example_platform
                (table_driver example_table) example_cpu
                (set_need_freq_update true example_sg_policy)
                (set_next_freq UINT_MAX example_sg_policy) example_policy
                example_env 101000000 0 eq_refl eq_refl eq_refl Hf) as H.
  destruct (@sugov_update_single example_platform (table_driver example_table)
              example_cpu (set_need_freq_update true example_sg_policy)
              example_policy example_env 101000000 0) as [[[c' sg'] p'] evs].
  destruct H as [H _].
  destruct H as (Hnext & Hcache & _ & _ & _ & Hevs); [left; reflexivity|].
  split; [exact Hnext|]. split; [exact Hcache|exact Hevs].
Defined.

Lemma iowait_boost_stays_zero_witness :
  Forall (fun c => iowait_boost c = 0)
    (@sugov_update_shared example_platform (table_driver example_table)
       0%nat [example_cpu; example_cpu] example_sg_policy example_policy
       example_env 103000000 0).1.1.1.
Proof.
  apply (proj2 (@iowait_boost_stays_zero example_platform
                  (table_driver example_table))).
  repeat apply Forall_cons_2; try apply Forall_nil_2; reflexivity.
Defined.

Lemma sugov_iowait_boost_decays_witness :
  iowait_boost
    (sugov_iowait_boost_over (example_sample 300 400000 100000000)
       [(100, 1024); (900, 1024); (0, 1024)])
  = 400000 / 2 ^ 3.
Proof.
  assert (0 <= iowait_boost (example_sample 300 400000 100000000)) as Hb
    by (simpl; lia).
  exact (proj1 (sugov_iowait_boost_decays
                  [(100, 1024); (900, 1024); (0, 1024)]
                  (example_sample 300 400000 100000000) Hb)).
Defined.

Lemma example_sample_in_range :
  cpu_in_range (example_sample 300 400000 100000000).
Proof. unfold cpu_in_range, pair_in_range. cbn. lia. Qed.

Lemma sugov_iowait_boost_raises_witness :
  let '(c', u', m') :=
    sugov_iowait_boost (example_sample 300 400000 100000000) 100 1024 in
  100 * m' <= u' * 1024.
Proof.
  assert (pair_in_range (100, 1024)) as Hp
    by (unfold pair_in_range; cbn; lia).
  pose proof (sugov_iowait_boost_raises (example_sample 300 400000 100000000)
                100 1024 example_sample_in_range Hp) as H.
  destruct (sugov_iowait_boost (example_sample 300 400000 100000000) 100 1024)
    as [[c' u'] m'].
  exact (proj1 (proj2 H)).
Defined.

Lemma sugov_get_util_clamped_witness :
  let '(u, m) := sugov_get_util example_env in m = 1024 /\ u <= m.
Proof.
  pose proof (sugov_get_util_clamped example_env eq_refl) as H.
  destruct (sugov_get_util example_env) as [u m].
  destruct H as (Hm & Hu & _). split; [exact Hm|exact Hu].
Defined.

Lemma rate_limit_us_store_propagates_witness :
  up_rate_limit_us_store example_tunables [example_sg_policy] (Some 3000) 5
  = (5, {| up_rate_limit_us := 3000; down_rate_limit_us := 20000 |},
     [set_min_rate_limit_ns 3000000
        (set_up_rate_delay_ns 3000000 example_sg_policy)]).
Proof.
  assert (forall v, Some 3000 = Some v -> 0 <= v < 2 ^ 32) as Hrange
    by (intros v [= <-]; lia).
  exact (proj1 (proj2 (rate_limit_us_store_propagates example_tunables
                         [example_sg_policy] (Some 3000) 5 Hrange)
                  3000 eq_refl)).
Defined.

Lemma sugov_update_rate_limit_us_consistent_witness :
  exists (sg' : sugov_policy) (t' : sugov_tunables),
    sugov_update_rate_limit_us (Some example_sg_policy) (Some example_tunables)
      4 40 = (Some sg', Some t')
    /\ up_rate_limit_us t' = 1000 * 4
    /\ up_rate_delay_ns sg' = 1000 * up_rate_limit_us t'.
Proof.
  destruct (@sugov_update_rate_limit_us_consistent example_platform
              example_sg_policy example_tunables 4 40
              ltac:(lia) ltac:(lia) ltac:(lia) ltac:(lia))
    as (_ & _ & sg' & t' & Hrun & Hup & _ & Hdelay & _).
  exists sg', t'. split; [exact Hrun|]. split; [exact Hup|exact Hdelay].
Defined.

Lemma sugov_start_resets_witness :
  let '(sg', pcpu', slack', hooks) :=
    @sugov_start example_platform 0%nat example_sg_policy example_tunables
      example_policy 15 example_cpus (repeat example_slack 8) in
  next_freq sg' = UINT_MAX
  /\ pcpu' !!! 2%nat = sugov_cpu_started 0%nat example_policy
  /\ pcpu' !!! 5%nat = sugov_cpu_zero.
Proof.
  pose proof (@sugov_start_resets example_platform 0%nat example_sg_policy
                example_tunables example_policy 15 example_cpus
                (repeat example_slack 8) eq_refl eq_refl) as H.
  cbv zeta in H.
  destruct (@sugov_start example_platform 0%nat example_sg_policy
              example_tunables example_policy 15 example_cpus
              (repeat example_slack 8)) as [[[sg' pcpu'] slack'] hooks].
  destruct H as ((Hnext & _) & _ & Hpcpu & _); [simpl; lia|simpl; lia|].
  split; [exact Hnext|]. split; [exact (Hpcpu 2%nat)|exact (Hpcpu 5%nat)].
Defined.

Lemma sugov_pm_notifier_enter_prepare_witness :
  let '(ret, x', traces) :=
    sugov_pm_notifier (example_sample 800 0 100000000) example_slack
      example_slack_env CPU_PM_ENTER_PREPARE in
  timer_pending (timer x') = true
  /\ expires (timer x') = u64 (250000 + (u32 70 + 3) / 4).
Proof.
  pose proof (sugov_pm_notifier_enter_prepare (example_sample 800 0 100000000)
                example_slack example_slack_env eq_refl) as H.
  cbv zeta in H.
  destruct (sugov_pm_notifier (example_sample 800 0 100000000) example_slack
              example_slack_env CPU_PM_ENTER_PREPARE) as [[ret x'] traces].
  destruct H as (_ & Hpending & Harmed & _).
  assert (schedtune_cpu_boost example_slack_env = 0
          /\ min example_slack < util (example_sample 800 0 100000000)
          /\ expired_time example_slack
             < get_next_event_time_ms example_slack_env) as Hneeded
    by (simpl; lia).
  split; [exact (proj2 Hpending Hneeded)|exact (proj1 (Harmed Hneeded))].
Defined.

Lemma sugov_pm_notifier_only_cancels_witness :
  let '(ret, x', traces) :=
    sugov_pm_notifier (example_sample 100 0 100000000)
      (set_timer (add_timer_on (timer example_slack)) example_slack)
      example_slack_env CPU_PM_ENTER in
  ret = NOTIFY_OK /\ expires (timer x') = 0.
Proof.
  assert (CPU_PM_ENTER <> CPU_PM_ENTER_PREPARE \/
          started (set_timer (add_timer_on (timer example_slack)) example_slack)
          = false) as Hcase by (left; discriminate).
  pose proof (sugov_pm_notifier_only_cancels (example_sample 100 0 100000000)
                (set_timer (add_timer_on (timer example_slack)) example_slack)
                example_slack_env CPU_PM_ENTER Hcase) as H.
  destruct (sugov_pm_notifier (example_sample 100 0 100000000)
              (set_timer (add_timer_on (timer example_slack)) example_slack)
              example_slack_env CPU_PM_ENTER) as [[ret x'] traces].
  destruct H as (Hret & _ & Hexp & _). split; [exact Hret|exact Hexp].
Defined.

Lemma sugov_slack_start_stop_witness :
  min (sugov_start_slack example_slack) = ULONG_MAX
  /\ started (sugov_stop_slack example_slack) = false.
Proof.
  assert (0 <= util (example_sample 800 0 100000000) <= ULONG_MAX) as Hutil
    by (unfold ULONG_MAX; simpl; lia).
  destruct (sugov_slack_start_stop (example_sample 800 0 100000000)
              example_slack example_slack_env Hutil)
    as (_ & Hstart & Hstop & _).
  assert (enabled example_slack <> 0) as Hen by (simpl; lia).
  split; [exact (proj1 (proj2 (Hstart Hen)))|exact Hstop].
Defined.

Lemma sugov_update_min_threshold_witness :
  @raw_freq example_platform example_policy 207 1024 <= 455000
  /\ min (@sugov_update_min example_platform example_policy 15 1024
            (repeat example_slack 8) !!! 1%nat) = 208.
Proof.
  assert (length (repeat example_slack 8) = @nr_cpu_ids example_platform)
    as Hlen by reflexivity.
  destruct (@sugov_update_min_threshold example_platform example_policy 15
              1024 (repeat example_slack 8) Hlen)
    as (Hslack & Hraw & _).
  - split; vm_compute; congruence.
  - split; vm_compute; congruence.
  - vm_compute; congruence.
  - vm_compute; congruence.
  - vm_compute; congruence.
  - split; vm_compute; congruence.
  - split.
    + apply Hraw. split; vm_compute; congruence.
    + rewrite Hslack. reflexivity.
Defined.

Lemma sugov_limits_forces_update_witness :
  exists sg0 : sugov_policy,
    (@sugov_limits example_platform (Some example_sg_policy) example_policy 15
       1024 (repeat example_slack 8)).1.1 = Some sg0
    /\ (sugov_should_update_freq sg0 100000001).2 = true.
Proof.
  destruct (proj2 (@sugov_limits_forces_update example_platform
                     (table_driver example_table) example_sg_policy
                     example_policy 15 1024 (repeat example_slack 8)))
    as (sg0 & Hrun & Hidle & _).
  exists sg0. split; [now rewrite Hrun|].
  specialize (Hidle eq_refl 100000001).
  destruct (sugov_should_update_freq sg0 100000001) as [sg1 go].
  exact (proj1 Hidle).
Defined.

Lemma find_cpu_pm_qos_class_first_witness :
  exists c : nat,
    @find_cpu_pm_qos_class example_platform example_governor 3 = Z.of_nat c
    /\ (c <= 2)%nat.
Proof.
  destruct (proj1 (@find_cpu_pm_qos_class_first example_platform
                     example_governor 3) 2%nat)
    as (c & Hfind & _ & Hle).
  - split; [simpl; lia|]. split; [reflexivity|]. split; reflexivity.
  - exists c. split; [exact Hfind|exact Hle].
Defined.

Lemma sugov_pm_qos_callback_result_witness :
  let '(ret, calls) :=
    @sugov_pm_qos_callback example_platform example_governor 455000 5 in
  ret = NOTIFY_BAD /\ calls = [].
Proof.
  pose proof (@sugov_pm_qos_callback_result example_platform example_governor
                455000 5) as H.
  destruct (@sugov_pm_qos_callback example_platform example_governor 455000 5)
    as [ret calls].
  destruct H as (_ & _ & H).
  apply (H 4%nat); [reflexivity|]. left. reflexivity.
Defined.

Lemma sugov_update_shared_covers_own_sample_witness :
  exists U M : Z,
    100 * M <= U * 1024
    /\ (@sugov_update_shared example_platform (table_driver example_table)
          1%nat example_cpus (set_need_freq_update true example_sg_policy)
          example_policy example_env 100020000 0).2
       = (@sugov_update_commit example_platform (table_driver example_table)
            (@get_next_freq example_platform (table_driver example_table)
               (set_next_freq UINT_MAX example_sg_policy) example_policy U M).1
            example_policy example_env 100020000
            (@get_next_freq example_platform (table_driver example_table)
               (set_next_freq UINT_MAX example_sg_policy) example_policy U M).2).2.
Proof.
  assert (Forall cpu_in_range
            (@fresh_cpus example_platform
               (<[1%nat :=
                   set_last_update 100020000
                     (set_iowait_boost 0
                        (set_sample (sugov_get_util example_env).1
                           (sugov_get_util example_env).2 0
                           (example_cpus !!! 1%nat)))]> example_cpus)
               100020000
               (for_each_cpu (@nr_cpu_ids example_platform)
                  (cpumask_and (related_cpus example_policy)
                     (cpu_online_mask example_env))))) as Hwf.
  { assert (@fresh_cpus example_platform
               (<[1%nat :=
                   set_last_update 100020000
                     (set_iowait_boost 0
                        (set_sample (sugov_get_util example_env).1
                           (sugov_get_util example_env).2 0
                           (example_cpus !!! 1%nat)))]> example_cpus)
               100020000
               (for_each_cpu (@nr_cpu_ids example_platform)
                  (cpumask_and (related_cpus example_policy)
                     (cpu_online_mask example_env)))
            = [example_sample 800 0 100000000;
               set_last_update 100020000
                 (set_sample 100 1024 0 (example_sample 200 0 100020000));
               example_sample 300 400000 100010000]) as -> by reflexivity.
    repeat apply Forall_cons_2; try apply Forall_nil_2;
      unfold cpu_in_range, pair_in_range; cbn; lia. }
  destruct (@sugov_update_shared_covers_own_sample example_platform
              (table_driver example_table) 1%nat example_cpus
              (set_need_freq_update true example_sg_policy)
              (set_next_freq UINT_MAX example_sg_policy)
              example_policy example_env 100020000 0)
    as (U & M & _ & Hratio & _ & Hevs); try reflexivity.
  - apply for_each_cpu_spec. split; [simpl; lia|reflexivity].
  - simpl. lia.
  - exact Hwf.
  - exists U, M. split; [exact Hratio|exact Hevs].
Defined.
